(** * EOS_connect inverter interfaces

    A shallow embedding of [src/interfaces/inverter_base.py] and of the
    backends in [src/interfaces/inverters/] (the null backend, the Victron
    stub and the factory), together with the [MockInverter] of
    [tests/interfaces/test_base_inverter.py].  The modules of the two
    Fronius backends are not part of the source tree at hand; what the
    properties need of them (constructor defaults, the session, the hash
    helpers and [strip_dict]) is modelled from the specification and the
    tests, and marked as such.

    Python objects are records, methods are computations in a small
    state-and-exception monad whose state holds the receiver ([self]) and
    the trace of effects (log records, HTTP requests) emitted so far.
    Dictionaries are finite maps with string keys, except the two factory
    registries, whose key order is visible in an error message and which
    are therefore association lists. *)

From Stdlib Require Import ZArith String Ascii List Lia.
From Stdlib Require Import Init.Byte.
From stdpp Require Import base option gmap strings list fin_maps.

Set Warnings "-register-all".
Local Open Scope Z_scope.

(** ** Python values *)

Inductive PyVal : Type :=
| VNone
| VBool (b : bool)
| VInt (z : Z)
| VStr (s : string)
| VDict (d : gmap string PyVal).

(** [d.get(key, default)] *)
Definition dict_get (d : gmap string PyVal) (key : string) (dflt : PyVal) : PyVal :=
  default dflt (d !! key).

(** [isinstance(v, dict)] *)
Definition is_dict (v : PyVal) : bool :=
  match v with VDict _ => true | _ => false end.

(** ** Strings

    A [string] is the sequence of bytes of the UTF-8 text.  [lower] maps the
    ASCII capitals to small letters and keeps every other byte, which is
    Python's [str.lower] on ASCII text.  On other text Python also lowers
    the capitals outside ASCII.  Only two of them give an ASCII letter:
    the Kelvin sign gives "k", a letter no registered inverter type
    contains, and the dotted capital I gives "i" followed by a combining
    dot, which is not ASCII.  So text outside ASCII is no key of the two
    registries of the factory under either function, and membership in
    them is the same either way.  Where a property depends on the
    lowered text itself, or on tables other than these two, it is stated
    for ASCII text ([is_ascii]). *)

Definition ascii_lower (c : ascii) : ascii :=
  let n := N_of_ascii c in
  if ((65 <=? n) && (n <=? 90))%N then ascii_of_N (n + 32) else c.

Fixpoint lower (s : string) : string :=
  match s with
  | EmptyString => EmptyString
  | String c s' => String (ascii_lower c) (lower s')
  end.

(** Text all of whose characters are ASCII. *)
Fixpoint is_ascii (s : string) : bool :=
  match s with
  | EmptyString => true
  | String c s' => (N_of_ascii c <? 128)%N && is_ascii s'
  end.

(** [sep.join(parts)] *)
Fixpoint join (sep : string) (parts : list string) : string :=
  match parts with
  | [] => ""
  | [p] => p
  | p :: rest => p +:+ sep +:+ join sep rest
  end.

(** [sub in s] for strings. *)
Definition occurs_in (sub s : string) : Prop :=
  ∃ pre post, s = pre +:+ sub +:+ post.

(** ** Exceptions

    The built-in exception classes the code raises or that a caller's
    handler may name, with Python's base-class chain, and the
    AuthenticationError of the specification's error taxonomy. *)

Inductive ExnClass :=
| Exception
| RuntimeError
| NotImplementedError
| ValueError
| AttributeError
| TypeError
| OSError
| ConnectionError
| TimeoutError
| AuthenticationError.

Global Instance ExnClass_eq_dec : EqDecision ExnClass.
Proof. solve_decision. Defined.

(** The method resolution order of a class: itself, then its bases. *)
Definition mro (c : ExnClass) : list ExnClass :=
  match c with
  | Exception => [Exception]
  | RuntimeError => [RuntimeError; Exception]
  | NotImplementedError => [NotImplementedError; RuntimeError; Exception]
  | ValueError => [ValueError; Exception]
  | AttributeError => [AttributeError; Exception]
  | TypeError => [TypeError; Exception]
  | OSError => [OSError; Exception]
  | ConnectionError => [ConnectionError; OSError; Exception]
  | TimeoutError => [TimeoutError; OSError; Exception]
  | AuthenticationError => [AuthenticationError; Exception]
  end.

Definition issubclass (c base : ExnClass) : bool :=
  bool_decide (base ∈ mro c).

Record Exn := mkExn { exn_class : ExnClass; exn_msg : string }.

(** [except handler:] catches [e]. *)
Definition catches (handler : ExnClass) (e : Exn) : bool :=
  issubclass (exn_class e) handler.

(** A failure of the transport is an [OSError] ([ConnectionError],
    [TimeoutError], and the [requests] exceptions derived from [IOError]). *)
Definition is_transport_failure (e : Exn) : bool := catches OSError e.

(** ** Effects: log records and HTTP requests *)

Inductive Logger := LBaseInverter | LNullInverter | LVictronModbus | LFactory.
Inductive Level := DEBUG | INFO | WARNING.

(** A log record stands for one call of a logger method, whether or not
    a handler prints it.  It keeps the format string of the source and
    the values substituted into it; for an f-string the format is its
    text and the values are those of its replacement fields, in order. *)
Record LogRecord := mkLog {
  log_logger : Logger;
  log_level : Level;
  log_msg : string;
  log_args : list PyVal
}.

Inductive HashAlgorithm := MD5 | SHA256.

(** The Authorization header of an authenticated request: the fields this
    development follows (the header also carries a realm, a client nonce
    and the response digest). *)
Record AuthHeader := mkAuthHeader {
  h_username : string;
  h_nonce : string;
  h_nc : Z;
  h_algorithm : HashAlgorithm
}.

Inductive Effect :=
| ELog (r : LogRecord)
| EHttp (method path : string) (auth : option AuthHeader).

Definition is_network_io (e : Effect) : bool :=
  match e with EHttp _ _ _ => true | ELog _ => false end.

(** ** The monad of methods *)

Inductive Outcome (A : Type) : Type :=
| Return (a : A)
| Raise (e : Exn).
Arguments Return {A} a.
Arguments Raise {A} e.

Record World (O : Type) := mkWorld { obj : O; trace : list Effect }.
Arguments mkWorld {O} obj trace.
Arguments obj {O} w.
Arguments trace {O} w.

Definition M (O A : Type) : Type := World O → Outcome A * World O.

Global Instance M_ret {O} : MRet (M O) := λ A a w, (Return a, w).
Global Instance M_bind {O} : MBind (M O) := λ A B f m w,
  match m w with
  | (Return a, w') => f a w'
  | (Raise e, w') => (Raise e, w')
  end.

Definition raise {O A} (c : ExnClass) (msg : string) : M O A :=
  λ w, (Raise (mkExn c msg), w).

Definition emit {O} (e : Effect) : M O unit :=
  λ w, (Return (), mkWorld (obj w) (trace w ++ [e])).

Definition get_self {O} : M O O := λ w, (Return (obj w), w).
Definition modify_self {O} (f : O → O) : M O unit :=
  λ w, (Return (), mkWorld (f (obj w)) (trace w)).

Definition logger_log {O} (lg : Logger) (lvl : Level) (msg : string)
    (args : list PyVal) : M O unit :=
  emit (ELog (mkLog lg lvl msg args)).

(** [type(v).__name__] *)
Definition type_name (v : PyVal) : string :=
  match v with
  | VNone => "NoneType"
  | VBool _ => "bool"
  | VInt _ => "int"
  | VStr _ => "str"
  | VDict _ => "dict"
  end.

(** [v.lower()]: only [str] has the attribute. *)
Definition str_lower {O} (v : PyVal) : M O string :=
  match v with
  | VStr s => mret (lower s)
  | _ => raise AttributeError
           ("'" +:+ type_name v +:+ "' object has no attribute 'lower'")
  end.

Global Instance M_fmap {O} : FMap (M O) := λ A B f m, a ← m; mret (f a).

(** ** Objects *)

(** The AuthenticationSession of an HTTP backend. *)
Record AuthenticationSession := mkSession {
  nonce : option string;
  ncvalue_num : Z;
  algorithm : HashAlgorithm;
  subsequent_login : bool;
  login_attempts : Z
}.

(** The subclasses of [BaseInverter]: the four the factory registers and
    the [MockInverter] of the base-class tests. *)
Inductive InverterClass :=
| NullInverter
| VictronInverter
| FroniusV2
| FroniusLegacy
| MockInverter.

Global Instance InverterClass_eq_dec : EqDecision InverterClass.
Proof. solve_decision. Defined.

(** [cls.__name__] *)
Definition class_name (cls : InverterClass) : string :=
  match cls with
  | NullInverter => "NullInverter"
  | VictronInverter => "VictronInverter"
  | FroniusV2 => "FroniusV2"
  | FroniusLegacy => "FroniusLegacy"
  | MockInverter => "MockInverter"
  end.

(** An instance: the attributes [BaseInverter.__init__] sets, the session
    of an HTTP backend, and in [attrs] whatever a subclass assigns later. *)
Record Inverter := mkInverter {
  class_of : InverterClass;
  config : gmap string PyVal;
  address : PyVal;
  user : string;
  password : PyVal;
  max_grid_charge_rate : PyVal;
  max_pv_charge_rate : PyVal;
  is_authenticated : bool;
  inverter_type : string;
  session : option AuthenticationSession;
  attrs : gmap string PyVal
}.

Definition set_is_authenticated (b : bool) (i : Inverter) : Inverter :=
  mkInverter (class_of i) (config i) (address i) (user i) (password i)
    (max_grid_charge_rate i) (max_pv_charge_rate i) b (inverter_type i)
    (session i) (attrs i).

Definition set_session (s : option AuthenticationSession) (i : Inverter) : Inverter :=
  mkInverter (class_of i) (config i) (address i) (user i) (password i)
    (max_grid_charge_rate i) (max_pv_charge_rate i) (is_authenticated i)
    (inverter_type i) s (attrs i).

(** [self.name = v] for an attribute outside [BaseInverter.__init__]. *)
Definition set_attr (name : string) (v : PyVal) (i : Inverter) : Inverter :=
  mkInverter (class_of i) (config i) (address i) (user i) (password i)
    (max_grid_charge_rate i) (max_pv_charge_rate i) (is_authenticated i)
    (inverter_type i) (session i) (<[name := v]> (attrs i)).

(** ** inverter_base.py *)

Module BaseInverter.

(** [__init__] runs on a new instance of [cls]; the computation has no
    receiver yet and returns the initialised object. *)
Definition __init__ (cls : InverterClass) (config : gmap string PyVal)
    : M unit Inverter :=
  user ← str_lower (dict_get config "user" (VStr "customer"));
  let self :=
    {| class_of := cls;
       config := config;
       address := dict_get config "address" VNone;
       user := user;
       password := dict_get config "password" (VStr "");
       max_grid_charge_rate := dict_get config "max_grid_charge_rate" VNone;
       max_pv_charge_rate := dict_get config "max_pv_charge_rate" VNone;
       is_authenticated := false;
       inverter_type := class_name cls;
       session := None;
       attrs := ∅ |} in
  logger_log LBaseInverter INFO
    "[{self.inverter_type}] Initialized for {self.address}"
    [VStr (inverter_type self); address self];;
  mret self.

Definition initialize : M Inverter unit := raise NotImplementedError "".

Definition authenticate : M Inverter bool :=
  self ← get_self;
  logger_log LBaseInverter DEBUG
    "[{self.inverter_type}] No authentication required"
    [VStr (inverter_type self)];;
  modify_self (set_is_authenticated true);;
  mret true.

Definition set_battery_mode (mode : string) : M Inverter bool :=
  raise NotImplementedError "".

(** [self.set_battery_mode] resolves in the class of the receiver: the
    subclass that reaches these bodies through [super()] supplies its
    own [set_battery_mode]. *)
Definition set_mode_avoid_discharge
    (self_set_battery_mode : string → M Inverter bool) : M Inverter bool :=
  self_set_battery_mode "hold".

Definition set_mode_allow_discharge
    (self_set_battery_mode : string → M Inverter bool) : M Inverter bool :=
  self_set_battery_mode "normal".

Definition set_allow_grid_charging (value : bool) : M Inverter unit :=
  raise NotImplementedError "".

Definition get_battery_info : M Inverter (gmap string PyVal) :=
  raise NotImplementedError "".

Definition fetch_inverter_data : M Inverter (gmap string PyVal) :=
  raise NotImplementedError "".

Definition set_mode_force_charge (charge_power_w : Z) : M Inverter bool :=
  raise NotImplementedError "".

Definition connect_inverter : M Inverter bool := raise NotImplementedError "".

Definition disconnect_inverter : M Inverter bool := raise NotImplementedError "".

Definition api_set_max_pv_charge_rate (max_pv_charge_rate : Z) : M Inverter unit :=
  self ← get_self;
  logger_log LBaseInverter DEBUG
    "[%s] api_set_max_pv_charge_rate(%d W) not implemented (no-op)"
    [VStr (inverter_type self); VInt max_pv_charge_rate].

Definition supports_extended_monitoring : M Inverter bool := mret false.

Definition disconnect : M Inverter unit :=
  self ← get_self;
  logger_log LBaseInverter INFO "[{self.inverter_type}] Session closed"
    [VStr (inverter_type self)].

Definition shutdown (self_disconnect : M Inverter unit) : M Inverter unit :=
  self_disconnect.

(** The names decorated with [@abstractmethod]. *)
Definition abstract_methods : list string :=
  [ "initialize"; "set_battery_mode"; "set_mode_avoid_discharge";
    "set_mode_allow_discharge"; "set_allow_grid_charging";
    "get_battery_info"; "fetch_inverter_data"; "set_mode_force_charge";
    "connect_inverter"; "disconnect_inverter" ].

End BaseInverter.

(** ** inverters/null_inverter.py *)

Module NullInverter.

Definition __init__ (config : gmap string PyVal) : M unit Inverter :=
  self ← BaseInverter.__init__ NullInverter config;
  logger_log LNullInverter INFO
    "[NullInverter] Initialized in display-only mode (type: %s)"
    [dict_get config "type" (VStr "unknown")];;
  mret self.

Definition initialize : M Inverter unit :=
  logger_log LNullInverter DEBUG "[NullInverter] No initialization required" [];;
  modify_self (set_is_authenticated true).

Definition connect_inverter : M Inverter bool :=
  logger_log LNullInverter DEBUG "[NullInverter] connect_inverter() called (no-op)" [];;
  mret true.

Definition disconnect_inverter : M Inverter bool :=
  logger_log LNullInverter DEBUG "[NullInverter] disconnect_inverter() called (no-op)" [];;
  mret true.

Definition set_battery_mode (mode : string) : M Inverter bool :=
  logger_log LNullInverter DEBUG
    "[NullInverter] set_battery_mode(%s) called (no-op)" [VStr mode];;
  mret true.

Definition set_mode_avoid_discharge : M Inverter bool :=
  logger_log LNullInverter DEBUG
    "[NullInverter] set_mode_avoid_discharge() called (no-op)" [];;
  mret true.

Definition set_mode_allow_discharge : M Inverter bool :=
  logger_log LNullInverter DEBUG
    "[NullInverter] set_mode_allow_discharge() called (no-op)" [];;
  mret true.

Definition set_mode_force_charge (charge_power_w : Z) : M Inverter bool :=
  logger_log LNullInverter DEBUG
    "[NullInverter] set_mode_force_charge(%d W) called (no-op)"
    [VInt charge_power_w];;
  mret true.

Definition set_allow_grid_charging (value : bool) : M Inverter unit :=
  logger_log LNullInverter DEBUG
    "[NullInverter] set_allow_grid_charging(%s) called (no-op)" [VBool value].

Definition get_battery_info : M Inverter (gmap string PyVal) :=
  logger_log LNullInverter DEBUG "[NullInverter] get_battery_info() called (no-op)" [];;
  mret ∅.

Definition fetch_inverter_data : M Inverter (gmap string PyVal) :=
  logger_log LNullInverter DEBUG "[NullInverter] fetch_inverter_data() called (no-op)" [];;
  mret ∅.

Definition supports_extended_monitoring : M Inverter bool := mret false.

(** The names the class body defines. *)
Definition defines : list string :=
  [ "__init__"; "initialize"; "connect_inverter"; "disconnect_inverter";
    "set_battery_mode"; "set_mode_avoid_discharge"; "set_mode_allow_discharge";
    "set_mode_force_charge"; "set_allow_grid_charging"; "get_battery_info";
    "fetch_inverter_data"; "supports_extended_monitoring" ].

End NullInverter.

(** ** inverters/victron.py *)

Module VictronInverter.

Definition __init__ (config : gmap string PyVal) : M unit Inverter :=
  BaseInverter.__init__ VictronInverter config.

Definition initialize : M Inverter unit := raise NotImplementedError "".
Definition set_mode_avoid_discharge : M Inverter bool := raise NotImplementedError "".
Definition set_mode_allow_discharge : M Inverter bool := raise NotImplementedError "".
Definition set_allow_grid_charging (value : bool) : M Inverter unit :=
  raise NotImplementedError "".
Definition set_battery_mode (mode : string) : M Inverter bool :=
  raise NotImplementedError "".
Definition get_battery_info : M Inverter (gmap string PyVal) :=
  raise NotImplementedError "".
Definition fetch_inverter_data : M Inverter (gmap string PyVal) :=
  raise NotImplementedError "".
Definition set_mode_force_charge (charge_power_w : Z) : M Inverter bool :=
  raise NotImplementedError "".
Definition connect_inverter : M Inverter bool := raise NotImplementedError "".
Definition disconnect_inverter : M Inverter bool := raise NotImplementedError "".

Definition defines : list string :=
  [ "__init__"; "initialize"; "set_mode_avoid_discharge";
    "set_mode_allow_discharge"; "set_allow_grid_charging"; "set_battery_mode";
    "get_battery_info"; "fetch_inverter_data"; "set_mode_force_charge";
    "connect_inverter"; "disconnect_inverter" ].

End VictronInverter.

(** ** tests/interfaces/test_base_inverter.py: MockInverter *)

Module MockInverter.

(** The class has no [__init__] of its own. *)
Definition __init__ (config : gmap string PyVal) : M unit Inverter :=
  BaseInverter.__init__ MockInverter config.

Definition initialize : M Inverter unit :=
  modify_self (set_attr "inverter_connected" (VBool true)).

Definition connect_inverter : M Inverter bool :=
  modify_self (set_attr "inverter_connected" (VBool true));;
  mret true.

Definition disconnect_inverter : M Inverter bool :=
  modify_self (set_attr "inverter_connected" (VBool false));;
  mret true.

Definition set_battery_mode (mode : string) : M Inverter bool :=
  modify_self (set_attr "last_mode_set" (VStr mode));;
  mret true.

Definition get_battery_info : M Inverter (gmap string PyVal) :=
  mret {[ "charge" := VInt 50; "status" := VStr "ok" ]}.

Definition fetch_inverter_data : M Inverter (gmap string PyVal) :=
  mret {[ "voltage" := VInt 230; "current" := VInt 10 ]}.

Definition set_mode_force_charge (charge_power_w : Z) : M Inverter bool :=
  modify_self (set_attr "forced_charge_power" (VInt charge_power_w));;
  mret true.

Definition set_allow_grid_charging (value : bool) : M Inverter unit :=
  modify_self (set_attr "grid_charging_allowed" (VBool value)).

(** [return super().set_mode_allow_discharge()] *)
Definition set_mode_allow_discharge : M Inverter bool :=
  BaseInverter.set_mode_allow_discharge set_battery_mode.

Definition set_mode_avoid_discharge : M Inverter bool :=
  BaseInverter.set_mode_avoid_discharge set_battery_mode.

Definition defines : list string :=
  [ "initialize"; "connect_inverter"; "disconnect_inverter";
    "set_battery_mode"; "get_battery_info"; "fetch_inverter_data";
    "set_mode_force_charge"; "set_allow_grid_charging";
    "set_mode_allow_discharge"; "set_mode_avoid_discharge" ].

End MockInverter.

(** ** Calls on an instance

    A call names a method of the Capability Contract (or one of the
    inherited helpers) with its arguments.  [invoke cls c] is the body
    Python's attribute lookup finds for [c] on an instance of [cls]: the
    class's own definition, else the one inherited from [BaseInverter]
    ([authenticate], [api_set_max_pv_charge_rate], [disconnect], [shutdown]
    and, where not overridden, [supports_extended_monitoring]).
    The modules of the two Fronius classes are not part of this
    development; [invoke] has no body for them. *)

Inductive Call :=
| Initialize
| Authenticate
| ConnectInverter
| DisconnectInverter
| SetBatteryMode (mode : string)
| SetModeAvoidDischarge
| SetModeAllowDischarge
| SetModeForceCharge (charge_power_w : Z)
| SetAllowGridCharging (value : bool)
| GetBatteryInfo
| FetchInverterData
| ApiSetMaxPvChargeRate (max_pv_charge_rate : Z)
| SupportsExtendedMonitoring
| Disconnect
| Shutdown.

Definition method_name (c : Call) : string :=
  match c with
  | Initialize => "initialize"
  | Authenticate => "authenticate"
  | ConnectInverter => "connect_inverter"
  | DisconnectInverter => "disconnect_inverter"
  | SetBatteryMode _ => "set_battery_mode"
  | SetModeAvoidDischarge => "set_mode_avoid_discharge"
  | SetModeAllowDischarge => "set_mode_allow_discharge"
  | SetModeForceCharge _ => "set_mode_force_charge"
  | SetAllowGridCharging _ => "set_allow_grid_charging"
  | GetBatteryInfo => "get_battery_info"
  | FetchInverterData => "fetch_inverter_data"
  | ApiSetMaxPvChargeRate _ => "api_set_max_pv_charge_rate"
  | SupportsExtendedMonitoring => "supports_extended_monitoring"
  | Disconnect => "disconnect"
  | Shutdown => "shutdown"
  end.

(** The ten operations every backend must expose: the names
    [BaseInverter] marks abstract, which are also the [required_methods]
    of [tests/interfaces/inverters/test_victron.py]. *)
Definition is_contract_method (c : Call) : bool :=
  bool_decide (method_name c ∈ BaseInverter.abstract_methods).

(** Control calls change what the device does; telemetry calls read it. *)
Definition is_control_call (c : Call) : bool :=
  match c with
  | SetBatteryMode _ | SetModeAvoidDischarge | SetModeAllowDischarge
  | SetModeForceCharge _ | SetAllowGridCharging _ => true
  | _ => false
  end.

Definition is_telemetry_call (c : Call) : bool :=
  match c with
  | GetBatteryInfo | FetchInverterData => true
  | _ => false
  end.

Definition ret_bool {O} (m : M O bool) : M O PyVal := VBool <$> m.
Definition ret_none {O} (m : M O unit) : M O PyVal := (λ _, VNone) <$> m.
Definition ret_dict {O} (m : M O (gmap string PyVal)) : M O PyVal := VDict <$> m.

Definition invoke_null (c : Call) : M Inverter PyVal :=
  match c with
  | Initialize => ret_none NullInverter.initialize
  | ConnectInverter => ret_bool NullInverter.connect_inverter
  | DisconnectInverter => ret_bool NullInverter.disconnect_inverter
  | SetBatteryMode mode => ret_bool (NullInverter.set_battery_mode mode)
  | SetModeAvoidDischarge => ret_bool NullInverter.set_mode_avoid_discharge
  | SetModeAllowDischarge => ret_bool NullInverter.set_mode_allow_discharge
  | SetModeForceCharge w => ret_bool (NullInverter.set_mode_force_charge w)
  | SetAllowGridCharging v => ret_none (NullInverter.set_allow_grid_charging v)
  | GetBatteryInfo => ret_dict NullInverter.get_battery_info
  | FetchInverterData => ret_dict NullInverter.fetch_inverter_data
  | SupportsExtendedMonitoring => ret_bool NullInverter.supports_extended_monitoring
  | Authenticate => ret_bool BaseInverter.authenticate
  | ApiSetMaxPvChargeRate w => ret_none (BaseInverter.api_set_max_pv_charge_rate w)
  | Disconnect => ret_none BaseInverter.disconnect
  | Shutdown => ret_none (BaseInverter.shutdown BaseInverter.disconnect)
  end.

Definition invoke_victron (c : Call) : M Inverter PyVal :=
  match c with
  | Initialize => ret_none VictronInverter.initialize
  | ConnectInverter => ret_bool VictronInverter.connect_inverter
  | DisconnectInverter => ret_bool VictronInverter.disconnect_inverter
  | SetBatteryMode mode => ret_bool (VictronInverter.set_battery_mode mode)
  | SetModeAvoidDischarge => ret_bool VictronInverter.set_mode_avoid_discharge
  | SetModeAllowDischarge => ret_bool VictronInverter.set_mode_allow_discharge
  | SetModeForceCharge w => ret_bool (VictronInverter.set_mode_force_charge w)
  | SetAllowGridCharging v => ret_none (VictronInverter.set_allow_grid_charging v)
  | GetBatteryInfo => ret_dict VictronInverter.get_battery_info
  | FetchInverterData => ret_dict VictronInverter.fetch_inverter_data
  | SupportsExtendedMonitoring => ret_bool BaseInverter.supports_extended_monitoring
  | Authenticate => ret_bool BaseInverter.authenticate
  | ApiSetMaxPvChargeRate w => ret_none (BaseInverter.api_set_max_pv_charge_rate w)
  | Disconnect => ret_none BaseInverter.disconnect
  | Shutdown => ret_none (BaseInverter.shutdown BaseInverter.disconnect)
  end.

Definition invoke_mock (c : Call) : M Inverter PyVal :=
  match c with
  | Initialize => ret_none MockInverter.initialize
  | ConnectInverter => ret_bool MockInverter.connect_inverter
  | DisconnectInverter => ret_bool MockInverter.disconnect_inverter
  | SetBatteryMode mode => ret_bool (MockInverter.set_battery_mode mode)
  | SetModeAvoidDischarge => ret_bool MockInverter.set_mode_avoid_discharge
  | SetModeAllowDischarge => ret_bool MockInverter.set_mode_allow_discharge
  | SetModeForceCharge w => ret_bool (MockInverter.set_mode_force_charge w)
  | SetAllowGridCharging v => ret_none (MockInverter.set_allow_grid_charging v)
  | GetBatteryInfo => ret_dict MockInverter.get_battery_info
  | FetchInverterData => ret_dict MockInverter.fetch_inverter_data
  | SupportsExtendedMonitoring => ret_bool BaseInverter.supports_extended_monitoring
  | Authenticate => ret_bool BaseInverter.authenticate
  | ApiSetMaxPvChargeRate w => ret_none (BaseInverter.api_set_max_pv_charge_rate w)
  | Disconnect => ret_none BaseInverter.disconnect
  | Shutdown => ret_none (BaseInverter.shutdown BaseInverter.disconnect)
  end.

Definition invoke (cls : InverterClass) (c : Call) : option (M Inverter PyVal) :=
  match cls with
  | NullInverter => Some (invoke_null c)
  | VictronInverter => Some (invoke_victron c)
  | MockInverter => Some (invoke_mock c)
  | FroniusV2 | FroniusLegacy => None
  end.

(** Running a call on an object, from an empty trace. *)
Definition run {O A} (m : M O A) (o : O) : Outcome A * World O :=
  m (mkWorld o []).

(** ** Message digests

    MD5 (RFC 1321) and SHA-256 (FIPS 180-4), the two algorithms of
    [hashlib] the hash helpers call. *)

Module Digest.

(** 32-bit words are integers in [0, 2^32); an operation that can leave
    the range is followed by the wrap-around [w32]. *)
Definition w32 (x : Z) : Z := x mod 2 ^ 32.
Definition add32 (x y : Z) : Z := w32 (x + y).
Definition not32 (x : Z) : Z := Z.lxor x 0xFFFFFFFF.
Definition rotl32 (x n : Z) : Z :=
  Z.lor (w32 (Z.shiftl x n)) (Z.shiftr x (32 - n)).
Definition rotr32 (x n : Z) : Z :=
  Z.lor (Z.shiftr x n) (w32 (Z.shiftl x (32 - n))).

Definition byte_val (b : Byte.byte) : Z := Z.of_N (Byte.to_N b).

(** [k] bytes of [x], least significant first and most significant first. *)
Fixpoint le_bytes (k : nat) (x : Z) : list Z :=
  match k with
  | O => []
  | S k' => x mod 256 :: le_bytes k' (x / 256)
  end.
Definition be_bytes (k : nat) (x : Z) : list Z := rev (le_bytes k x).

Fixpoint words_le (bs : list Z) : list Z :=
  match bs with
  | b0 :: b1 :: b2 :: b3 :: rest =>
      (b0 + 256 * (b1 + 256 * (b2 + 256 * b3))) :: words_le rest
  | _ => []
  end.

Fixpoint words_be (bs : list Z) : list Z :=
  match bs with
  | b0 :: b1 :: b2 :: b3 :: rest =>
      (b3 + 256 * (b2 + 256 * (b1 + 256 * b0))) :: words_be rest
  | _ => []
  end.

(** The padding of both algorithms: a 1 bit, zeros up to 56 bytes
    modulo 64, then the bit length of the message in 8 bytes. *)
Definition pad (len_bytes : Z → list Z) (msg : list Z) : list Z :=
  let n := Z.of_nat (length msg) in
  msg ++ [0x80] ++ replicate (Z.to_nat ((55 - n) mod 64)) 0
      ++ len_bytes ((8 * n) mod 2 ^ 64).

(** The 16-word blocks of a padded message. *)
Fixpoint blocks (fuel : nat) (ws : list Z) : list (list Z) :=
  match fuel, ws with
  | S f, _ :: _ => take 16 ws :: blocks f (drop 16 ws)
  | _, _ => []
  end.

Definition hex_digit (n : Z) : ascii :=
  ascii_of_N (Z.to_N (if n <? 10 then 48 + n else 87 + n)).

Definition hex_byte (b : Z) : string :=
  String (hex_digit (b / 16 mod 16)) (String (hex_digit (b mod 16)) EmptyString).

(** [.hexdigest()] of the digest bytes. *)
Fixpoint hexdigest (bs : list Z) : string :=
  match bs with
  | [] => EmptyString
  | b :: rest => hex_byte b +:+ hexdigest rest
  end.

(** *** MD5 *)

Definition md5_s : list Z :=
  [ 7; 12; 17; 22; 7; 12; 17; 22; 7; 12; 17; 22; 7; 12; 17; 22;
    5; 9; 14; 20; 5; 9; 14; 20; 5; 9; 14; 20; 5; 9; 14; 20;
    4; 11; 16; 23; 4; 11; 16; 23; 4; 11; 16; 23; 4; 11; 16; 23;
    6; 10; 15; 21; 6; 10; 15; 21; 6; 10; 15; 21; 6; 10; 15; 21 ].

(** [floor (2^32 * abs (sin (i + 1)))] for [i] from 0 to 63. *)
Definition md5_K : list Z :=
  [ 0xd76aa478; 0xe8c7b756; 0x242070db; 0xc1bdceee;
    0xf57c0faf; 0x4787c62a; 0xa8304613; 0xfd469501;
    0x698098d8; 0x8b44f7af; 0xffff5bb1; 0x895cd7be;
    0x6b901122; 0xfd987193; 0xa679438e; 0x49b40821;
    0xf61e2562; 0xc040b340; 0x265e5a51; 0xe9b6c7aa;
    0xd62f105d; 0x02441453; 0xd8a1e681; 0xe7d3fbc8;
    0x21e1cde6; 0xc33707d6; 0xf4d50d87; 0x455a14ed;
    0xa9e3e905; 0xfcefa3f8; 0x676f02d9; 0x8d2a4c8a;
    0xfffa3942; 0x8771f681; 0x6d9d6122; 0xfde5380c;
    0xa4beea44; 0x4bdecfa9; 0xf6bb4b60; 0xbebfbc70;
    0x289b7ec6; 0xeaa127fa; 0xd4ef3085; 0x04881d05;
    0xd9d4d039; 0xe6db99e5; 0x1fa27cf8; 0xc4ac5665;
    0xf4292244; 0x432aff97; 0xab9423a7; 0xfc93a039;
    0x655b59c3; 0x8f0ccc92; 0xffeff47d; 0x85845dd1;
    0x6fa87e4f; 0xfe2ce6e0; 0xa3014314; 0x4e0811a1;
    0xf7537e82; 0xbd3af235; 0x2ad7d2bb; 0xeb86d391 ].

Definition md5_step (m : list Z) (st : Z * Z * Z * Z) (i : Z) : Z * Z * Z * Z :=
  let '(a, b, c, d) := st in
  let '(f, g) :=
    if i <? 16 then (Z.lor (Z.land b c) (Z.land (not32 b) d), i)
    else if i <? 32 then
      (Z.lor (Z.land d b) (Z.land (not32 d) c), (5 * i + 1) mod 16)
    else if i <? 48 then (Z.lxor (Z.lxor b c) d, (3 * i + 5) mod 16)
    else (Z.lxor c (Z.lor b (not32 d)), (7 * i) mod 16) in
  let k := md5_K !!! Z.to_nat i in
  let s := md5_s !!! Z.to_nat i in
  let x := m !!! Z.to_nat g in
  let f' := add32 (add32 (add32 f a) k) x in
  (d, add32 b (rotl32 f' s), b, c).

Definition md5_block (st : Z * Z * Z * Z) (m : list Z) : Z * Z * Z * Z :=
  let '(a0, b0, c0, d0) := st in
  let '(a, b, c, d) := fold_left (md5_step m) (map Z.of_nat (seq 0 64)) st in
  (add32 a0 a, add32 b0 b, add32 c0 c, add32 d0 d).

Definition md5_init : Z * Z * Z * Z :=
  (0x67452301, 0xefcdab89, 0x98badcfe, 0x10325476).

Definition md5 (msg : list Byte.byte) : list Z :=
  let ws := words_le (pad (le_bytes 8) (map byte_val msg)) in
  let '(a, b, c, d) := fold_left md5_block (blocks (length ws) ws) md5_init in
  le_bytes 4 a ++ le_bytes 4 b ++ le_bytes 4 c ++ le_bytes 4 d.

(** *** SHA-256 *)

(** The largest [r] below [2^bits] with [r^k <= n], bit by bit. *)
Fixpoint iroot (k : Z) (n : Z) (bits : nat) (acc : Z) : Z :=
  match bits with
  | O => acc
  | S b =>
      let c := acc + 2 ^ Z.of_nat b in
      if c ^ k <=? n then iroot k n b c else iroot k n b acc
  end.

(** The first 32 bits of the fractional part of the [k]-th root of [p]. *)
Definition root_frac32 (k p : Z) : Z :=
  w32 (iroot k (p * 2 ^ (32 * k)) 40 0).

Definition is_prime (n : Z) : bool :=
  forallb (λ d, negb (n mod d =? 0)) (map Z.of_nat (seq 2 (Z.to_nat n - 2))).

(** The first 64 primes. *)
Definition primes64 : list Z :=
  Eval vm_compute in
    filter (λ n, is_prime n = true) (map Z.of_nat (seq 2 310)).

(** The initial hash value, from the square roots of the first 8 primes. *)
Definition sha256_H0 : list Z :=
  Eval vm_compute in map (root_frac32 2) (take 8 primes64).

(** The round constants, from the cube roots of the first 64 primes. *)
Definition sha256_K : list Z :=
  Eval vm_compute in map (root_frac32 3) primes64.

Definition Ch (x y z : Z) : Z := Z.lxor (Z.land x y) (Z.land (not32 x) z).
Definition Maj (x y z : Z) : Z :=
  Z.lxor (Z.lxor (Z.land x y) (Z.land x z)) (Z.land y z).
Definition Sigma0 (x : Z) : Z :=
  Z.lxor (Z.lxor (rotr32 x 2) (rotr32 x 13)) (rotr32 x 22).
Definition Sigma1 (x : Z) : Z :=
  Z.lxor (Z.lxor (rotr32 x 6) (rotr32 x 11)) (rotr32 x 25).
Definition sigma0 (x : Z) : Z :=
  Z.lxor (Z.lxor (rotr32 x 7) (rotr32 x 18)) (Z.shiftr x 3).
Definition sigma1 (x : Z) : Z :=
  Z.lxor (Z.lxor (rotr32 x 17) (rotr32 x 19)) (Z.shiftr x 10).

(** The message schedule, extended by [n] words. *)
Fixpoint schedule (n : nat) (w : list Z) : list Z :=
  match n with
  | O => w
  | S n' =>
      let t := length w in
      let x :=
        add32 (add32 (sigma1 (w !!! (t - 2)%nat)) (w !!! (t - 7)%nat))
              (add32 (sigma0 (w !!! (t - 15)%nat)) (w !!! (t - 16)%nat)) in
      schedule n' (w ++ [x])
  end.

Definition sha256_step (st : list Z) (kw : Z * Z) : list Z :=
  match st with
  | [a; b; c; d; e; f; g; h] =>
      let t1 :=
        add32 (add32 (add32 (add32 h (Sigma1 e)) (Ch e f g)) kw.1) kw.2 in
      let t2 := add32 (Sigma0 a) (Maj a b c) in
      [add32 t1 t2; a; b; c; add32 d t1; e; f; g]
  | _ => st
  end.

Definition sha256_block (st : list Z) (m : list Z) : list Z :=
  zip_with add32 st (fold_left sha256_step (zip sha256_K (schedule 48 m)) st).

Definition sha256 (msg : list Byte.byte) : list Z :=
  let ws := words_be (pad (be_bytes 8) (map byte_val msg)) in
  flat_map (be_bytes 4)
    (fold_left sha256_block (blocks (length ws) ws) sha256_H0).

End Digest.

(** ** The helpers of fronius_legacy.py and fronius_v2.py *)

(** The argument of a hash helper: text or bytes. *)
Inductive HashInput :=
| Text (s : string)
| Bytes (b : list Byte.byte).

(** [x.encode("utf-8")] when [x] is a [str]; the bytes of a [string] are
    already those of its UTF-8 encoding. *)
Definition encode_utf8 (x : HashInput) : list Byte.byte :=
  match x with
  | Text s => list_byte_of_string s
  | Bytes b => b
  end.

(** Modelled from the spec: the hash helpers of fronius_legacy.py
    ([hash_utf8]) and fronius_v2.py ([hash_utf8_md5], [hash_utf8_sha256]),
    which are not under src: pure functions from text or bytes to the hex
    digest of the legacy algorithm (MD5) and of the modern one (SHA-256). *)
Definition hash_utf8 (x : HashInput) : string :=
  Digest.hexdigest (Digest.md5 (encode_utf8 x)).

Definition hash_utf8_md5 (x : HashInput) : string :=
  Digest.hexdigest (Digest.md5 (encode_utf8 x)).

Definition hash_utf8_sha256 (x : HashInput) : string :=
  Digest.hexdigest (Digest.sha256 (encode_utf8 x)).

(** The "internal" naming convention: a leading underscore. *)
Definition is_internal_key (key : string) : bool := String.prefix "_" key.

(** Modelled from the spec: [strip_dict] of fronius_legacy.py and
    fronius_v2.py, which are not under src: a mapping loses the keys with
    the internal naming convention and keeps every other key with its
    value; anything that is not a mapping is returned as it is. *)
Definition strip_dict (original : PyVal) : PyVal :=
  match original with
  | VDict d => VDict (filter (λ kv, is_internal_key kv.1 = false) d)
  | _ => original
  end.

(** ** The Fronius backends (fronius_v2.py, fronius_legacy.py) *)

Module Fronius.

(** Modelled from the spec: a fresh AuthenticationSession.  The
    nonce-use counter starts at 1, the login is a first login, no login
    has been attempted, and no nonce is known yet. *)
Definition fresh_session (alg : HashAlgorithm) : AuthenticationSession :=
  {| nonce := None;
     ncvalue_num := 1;
     algorithm := alg;
     subsequent_login := false;
     login_attempts := 0 |}.

(** Legacy backends fix the algorithm; newer ones default to the
    stronger of the two. *)
Definition default_algorithm (cls : InverterClass) : HashAlgorithm :=
  match cls with
  | FroniusLegacy => MD5
  | _ => SHA256
  end.

(** Modelled from the spec: the constructors of [FroniusV2] and
    [FroniusLegacy], which are not under src.  They run
    [BaseInverter.__init__], start a fresh session and set the battery
    defaults ([min_soc] 5, [max_soc] 100, [capacity] unknown). *)
Definition __init__ (cls : InverterClass) (config : gmap string PyVal)
    : M unit Inverter :=
  self ← BaseInverter.__init__ cls config;
  mret (set_session (Some (fresh_session (default_algorithm cls)))
         (set_attr "capacity" (VInt (-1))
           (set_attr "min_soc" (VInt 5)
             (set_attr "max_soc" (VInt 100) self)))).

(** Modelled from the spec: every backend implements the operations of
    the Capability Contract; the Fronius backends also advertise the
    two optional capabilities. *)
Definition defines : list string :=
  [ "__init__"; "initialize"; "authenticate"; "connect_inverter";
    "disconnect_inverter"; "set_battery_mode"; "set_mode_avoid_discharge";
    "set_mode_allow_discharge"; "set_mode_force_charge";
    "set_allow_grid_charging"; "get_battery_info"; "fetch_inverter_data";
    "supports_extended_monitoring"; "api_set_max_pv_charge_rate" ].

Definition with_counter (n : Z) (s : AuthenticationSession) : AuthenticationSession :=
  mkSession (nonce s) n (algorithm s) (subsequent_login s) (login_attempts s).

Definition with_attempts (n : Z) (s : AuthenticationSession) : AuthenticationSession :=
  mkSession (nonce s) (ncvalue_num s) (algorithm s) (subsequent_login s) n.

Definition with_subsequent (b : bool) (s : AuthenticationSession) : AuthenticationSession :=
  mkSession (nonce s) (ncvalue_num s) (algorithm s) b (login_attempts s).

Definition with_nonce (n : option string) (s : AuthenticationSession) : AuthenticationSession :=
  mkSession n (ncvalue_num s) (algorithm s) (subsequent_login s) (login_attempts s).

Definition get_session : M Inverter AuthenticationSession :=
  self ← get_self;
  match session self with
  | Some s => mret s
  | None => raise AttributeError "object has no attribute 'ncvalue_num'"
  end.

Definition update_session (f : AuthenticationSession → AuthenticationSession)
    : M Inverter unit :=
  s ← get_session;
  modify_self (set_session (Some (f s))).

(** What the server answers to a login request. *)
Inductive ServerReply :=
| Accepted
| StaleNonce (fresh_nonce : string)
| Rejected.

(** Modelled from the spec (4.2, step 2): an authenticated request
    carries the nonce-use counter, and the counter grows by one with
    each such request.  The result is the counter the request carried. *)
Definition authenticated_request (method path : string) : M Inverter Z :=
  self ← get_self;
  s ← get_session;
  emit (EHttp method path
          (Some {| h_username := user self;
                   h_nonce := default "" (nonce s);
                   h_nc := ncvalue_num s;
                   h_algorithm := algorithm s |}));;
  update_session (with_counter (ncvalue_num s + 1));;
  mret (ncvalue_num s).

(** Modelled from the spec (4.1, 4.2 steps 3 and 4): [authenticate]
    establishes or renews the session with one login request to the
    resource [method path].  The attempts are capped at [max_attempts];
    beyond the cap the call raises without touching the network.  When
    the server accepts, the login is no longer a first login and the
    attempt counter is reset; when it signals a stale nonce, the
    challenge is requested again, the counter restarts and the flag
    goes back to "first". *)
Definition authenticate (max_attempts : Z) (method path : string)
    (reply : ServerReply) : M Inverter bool :=
  s ← get_session;
  if max_attempts <? login_attempts s + 1 then
    raise AuthenticationError "login attempts exceeded"
  else
    update_session (with_attempts (login_attempts s + 1));;
    authenticated_request method path;;
    match reply with
    | Accepted =>
        update_session (λ s, with_attempts 0 (with_subsequent true s));;
        modify_self (set_is_authenticated true);;
        mret true
    | StaleNonce fresh_nonce =>
        emit (EHttp method path None);;
        update_session (λ s, with_nonce (Some fresh_nonce)
                               (with_counter 1 (with_subsequent false s)));;
        modify_self (set_is_authenticated false);;
        mret false
    | Rejected =>
        modify_self (set_is_authenticated false);;
        mret false
    end.

End Fronius.

(** ** inverters/inverter_factory.py *)

(** A registry: config string to inverter class, in the order written. *)
Definition Registry : Type := list (string * InverterClass).

Definition INVERTER_TYPES : Registry :=
  [ ("victron", VictronInverter);
    ("fronius_gen24", FroniusV2);
    ("evcc", NullInverter);
    ("default", NullInverter) ].

Definition LEGACY_INVERTER_TYPES : Registry :=
  [ ("fronius_gen24_legacy", FroniusLegacy);
    ("fronius_gen24_v2", FroniusV2) ].

(** [registry[key]], [None] when [key not in registry]. *)
Fixpoint registry_get (key : string) (r : Registry) : option InverterClass :=
  match r with
  | [] => None
  | (k, cls) :: rest => if String.eqb key k then Some cls else registry_get key rest
  end.

(** [list(registry.keys())] *)
Definition registry_keys (r : Registry) : list string := map fst r.

(** The names a class body defines. *)
Definition defines (cls : InverterClass) : list string :=
  match cls with
  | NullInverter => NullInverter.defines
  | VictronInverter => VictronInverter.defines
  | MockInverter => MockInverter.defines
  | FroniusV2 | FroniusLegacy => Fronius.defines
  end.

(** [cls.__abstractmethods__]: the abstract names of [BaseInverter] the
    class does not define. *)
Definition abstractmethods (cls : InverterClass) : list string :=
  filter (λ m, m ∉ defines cls) BaseInverter.abstract_methods.

(** A class implements the full Capability Contract when it defines every
    operation [BaseInverter] declares abstract. *)
Definition implements_contract (cls : InverterClass) : bool :=
  forallb (λ m, bool_decide (m ∈ defines cls)) BaseInverter.abstract_methods.

(** [cls(config)]: a class with abstract methods left cannot be
    instantiated; otherwise its [__init__] runs on the new object. *)
Definition instantiate (cls : InverterClass) (config : gmap string PyVal)
    : M unit Inverter :=
  match abstractmethods cls with
  | [] =>
      match cls with
      | NullInverter => NullInverter.__init__ config
      | VictronInverter => VictronInverter.__init__ config
      | MockInverter => MockInverter.__init__ config
      | FroniusV2 | FroniusLegacy => Fronius.__init__ cls config
      end
  | _ :: _ =>
      raise TypeError "Can't instantiate abstract class with abstract methods"
  end.

Section Factory.

(** The two tiers: the function reads them from the module globals. *)
Variables (active legacy : Registry).

Definition create_inverter_from (config : gmap string PyVal) : M unit Inverter :=
  inverter_type ← str_lower (dict_get config "type" (VStr ""));
  match registry_get inverter_type active with
  | Some cls =>
      logger_log LFactory INFO
        "[Factory] Creating modern inverter '%s' (%s)"
        [VStr inverter_type; VStr (class_name cls)];;
      instantiate cls config
  | None =>
      match registry_get inverter_type legacy with
      | Some cls =>
          logger_log LFactory WARNING
            ("[Factory] Creating legacy inverter '%s' (%s). " +:+
             "Consider updating to a modern type for future compatibility.")
            [VStr inverter_type; VStr (class_name cls)];;
          instantiate cls config
      | None =>
          let supported := registry_keys active ++ registry_keys legacy in
          raise ValueError
            ("Unknown inverter type: '" +:+ inverter_type +:+ "'. " +:+
             "Supported types: " +:+ join ", " supported)
      end
  end.

End Factory.

Definition create_inverter (config : gmap string PyVal) : M unit Inverter :=
  create_inverter_from INVERTER_TYPES LEGACY_INVERTER_TYPES config.

(** The world a constructor or the factory starts in: no receiver, and
    the effects emitted so far. *)
Definition start (t : list Effect) : World unit := mkWorld () t.

(** ** Vocabulary of the properties *)

(** The HTTP requests among the effects of a world. *)
Definition network_io (w : World Inverter) : list Effect :=
  filter (λ e, is_network_io e = true) (trace w).

(** [w'] comes from [w] by emitting log records only: the receiver is the
    same object in the same state and nothing went over the network. *)
Definition logs_only (w w' : World Inverter) : Prop :=
  obj w' = obj w ∧
  ∃ records, trace w' = trace w ++ map ELog records.

(** The configuration record gives the user, when it gives one, as text. *)
Definition user_is_text (config : gmap string PyVal) : Prop :=
  ∃ u, dict_get config "user" (VStr "customer") = VStr u.

(** Every character is one of [0-9a-f]. *)
Definition is_hex_char (c : ascii) : bool :=
  let n := N_of_ascii c in
  (((48 <=? n) && (n <=? 57)) || ((97 <=? n) && (n <=? 102)))%N.

Fixpoint all_hex (s : string) : bool :=
  match s with
  | EmptyString => true
  | String c s' => is_hex_char c && all_hex s'
  end.

(** The counters the authenticated requests of a trace carried, oldest
    first. *)
Definition counters_sent (t : list Effect) : list Z :=
  omap (λ e, match e with
             | EHttp _ _ (Some h) => Some (h_nc h)
             | _ => None
             end) t.

(** ** Fixtures of the test suite *)

(** [null_config_default] of test_null_inverter.py. *)
Definition null_config_default : gmap string PyVal :=
  {[ "type" := VStr "default";
     "address" := VStr "192.168.1.100";
     "max_grid_charge_rate" := VInt 5000;
     "max_pv_charge_rate" := VInt 5000 ]}.

(** [NullInverter(null_config_default)] *)
Definition null_inverter : Inverter :=
  {| class_of := NullInverter;
     config := null_config_default;
     address := VStr "192.168.1.100";
     user := "customer";
     password := VStr "";
     max_grid_charge_rate := VInt 5000;
     max_pv_charge_rate := VInt 5000;
     is_authenticated := false;
     inverter_type := "NullInverter";
     session := None;
     attrs := ∅ |}.

(** [victron_config] of test_victron.py. *)
Definition victron_config : gmap string PyVal :=
  {[ "address" := VStr "192.168.1.200";
     "max_pv_charge_rate" := VInt 15000;
     "max_grid_charge_rate" := VInt 10000;
     "type" := VStr "victron" ]}.

(** [VictronInverter(victron_config)] *)
Definition victron_inverter : Inverter :=
  {| class_of := VictronInverter;
     config := victron_config;
     address := VStr "192.168.1.200";
     user := "customer";
     password := VStr "";
     max_grid_charge_rate := VInt 10000;
     max_pv_charge_rate := VInt 15000;
     is_authenticated := false;
     inverter_type := "VictronInverter";
     session := None;
     attrs := ∅ |}.

(** [fronius_v2_config] of test_fronius_v2.py. *)
Definition fronius_v2_config : gmap string PyVal :=
  {[ "address" := VStr "192.168.1.102";
     "user" := VStr "customer";
     "password" := VStr "test_password";
     "max_pv_charge_rate" := VInt 15000;
     "max_grid_charge_rate" := VInt 10000;
     "type" := VStr "fronius_gen24" ]}.

(** The fixtures [config] and [inverter] of test_base_inverter.py. *)
Definition mock_config : gmap string PyVal :=
  {[ "address" := VStr "192.168.0.100";
     "user" := VStr "admin";
     "password" := VStr "secret" ]}.

(** [MockInverter(config)] *)
Definition mock_inverter : Inverter :=
  {| class_of := MockInverter;
     config := mock_config;
     address := VStr "192.168.0.100";
     user := "admin";
     password := VStr "secret";
     max_grid_charge_rate := VNone;
     max_pv_charge_rate := VNone;
     is_authenticated := false;
     inverter_type := "MockInverter";
     session := None;
     attrs := ∅ |}.

(** ** Callers *)

(** Calls one after the other, as in a caller's straight-line code: the
    first exception ends the sequence, and the effects up to it stay. *)
Fixpoint invoke_all (body : Call → M Inverter PyVal) (calls : list Call)
    : M Inverter (list PyVal) :=
  match calls with
  | [] => mret []
  | c :: rest => v ← body c; vs ← invoke_all body rest; mret (v :: vs)
  end.

(** The method table of a class whose module is in the source tree:
    [methods_of cls] gives for every call the body [invoke] finds. *)
Definition methods_of (cls : InverterClass) : option (Call → M Inverter PyVal) :=
  match cls with
  | NullInverter => Some invoke_null
  | VictronInverter => Some invoke_victron
  | MockInverter => Some invoke_mock
  | FroniusV2 | FroniusLegacy => None
  end.

(** The calls that set [is_authenticated] on the null backend. *)
Definition switches_authenticated (c : Call) : bool :=
  match c with
  | Authenticate | Initialize => true
  | _ => false
  end.

(** The calls that write no log record on the null backend. *)
Definition is_silent (c : Call) : bool :=
  match c with
  | SupportsExtendedMonitoring => true
  | _ => false
  end.

(** What a call that the Victron stub and the mock inherit from
    [BaseInverter] logs on the object [i]. *)
Definition inherited_log (i : Inverter) (c : Call) : list Effect :=
  match c with
  | Authenticate =>
      [ELog (mkLog LBaseInverter DEBUG
               "[{self.inverter_type}] No authentication required"
               [VStr (inverter_type i)])]
  | ApiSetMaxPvChargeRate rate =>
      [ELog (mkLog LBaseInverter DEBUG
               "[%s] api_set_max_pv_charge_rate(%d W) not implemented (no-op)"
               [VStr (inverter_type i); VInt rate])]
  | Disconnect | Shutdown =>
      [ELog (mkLog LBaseInverter INFO "[{self.inverter_type}] Session closed"
               [VStr (inverter_type i)])]
  | _ => []
  end.

(** The object after the inherited calls [calls]: [authenticate] sets
    [is_authenticated], nothing else changes. *)
Definition after_inherited (i : Inverter) (calls : list Call) : Inverter :=
  if existsb (λ c, match c with Authenticate => true | _ => false end) calls
  then set_is_authenticated true i else i.

(** What a call inherited from [BaseInverter] returns. *)
Definition inherited_value (c : Call) : PyVal :=
  match c with
  | Authenticate => VBool true
  | SupportsExtendedMonitoring => VBool false
  | _ => VNone
  end.

(** The record [BaseInverter.disconnect] writes. *)
Definition session_closed (i : Inverter) : Effect :=
  ELog (mkLog LBaseInverter INFO "[{self.inverter_type}] Session closed"
          [VStr (inverter_type i)]).



(** [getattr(self, name)] for an attribute a subclass assigned. *)
Definition attr (name : string) (i : Inverter) : option PyVal := attrs i !! name.

(** [j] is [i] after the assignment [self.name = v] and nothing else:
    the class, every attribute [BaseInverter.__init__] set, the session
    and every attribute of another name are in [j] as they are in [i]. *)
Definition assigned (name : string) (v : PyVal) (i j : Inverter) : Prop :=
  class_of j = class_of i ∧ config j = config i ∧ address j = address i ∧
  user j = user i ∧ password j = password i ∧
  max_grid_charge_rate j = max_grid_charge_rate i ∧
  max_pv_charge_rate j = max_pv_charge_rate i ∧
  is_authenticated j = is_authenticated i ∧
  inverter_type j = inverter_type i ∧ session j = session i ∧
  attr name j = Some v ∧
  ∀ other, other ≠ name → attr other j = attr other i.

(** ** Tactics *)

(** Unfold the monad down to the function on worlds. *)
Ltac unfold_monad :=
  cbv [mbind M_bind mret M_ret fmap M_fmap raise emit get_self modify_self
       logger_log ret_bool ret_none ret_dict str_lower].

(** ** The fixtures are what the constructors build *)

Example factory_builds_null_inverter :
  (create_inverter null_config_default (start [])).1 = Return null_inverter.
Proof. reflexivity. Qed.

Example factory_builds_victron_inverter :
  (create_inverter victron_config (start [])).1 = Return victron_inverter.
Proof. reflexivity. Qed.

Example constructor_builds_mock_inverter :
  (MockInverter.__init__ mock_config (start [])).1 = Return mock_inverter.
Proof. reflexivity. Qed.

Example factory_is_case_insensitive :
  class_of <$> (match (create_inverter {[ "type" := VStr "Fronius_GEN24_Legacy" ]} (start [])).1 with
                | Return i => Some i
                | Raise _ => None
                end) = Some FroniusLegacy.
Proof. reflexivity. Qed.

(** ** The null backend *)

Lemma logs_only_one (w : World Inverter) (r : LogRecord) :
  logs_only w (mkWorld (obj w) (trace w ++ [ELog r])).
Proof. split; [reflexivity | by exists [r]]. Qed.

Lemma logs_only_no_network (w w' : World Inverter) :
  logs_only w w' → network_io w' = network_io w.
Proof.
  intros [_ [records Htrace]]. unfold network_io. rewrite Htrace, filter_app.
  clear Htrace.
  assert (Hnone : filter (λ e, is_network_io e = true) (map ELog records) = []).
  { induction records as [| r records IH]; [reflexivity |].
    simpl. rewrite filter_cons_False by (simpl; discriminate). exact IH. }
  by rewrite Hnone, app_nil_r.
Qed.

(** C6.  The null backend, for every argument and in every state of the
    object: [connect_inverter] and [disconnect_inverter] return [True],
    [get_battery_info] and [fetch_inverter_data] return an empty mapping,
    [supports_extended_monitoring] returns [False], and every control
    call ([set_battery_mode], the two discharge helpers,
    [set_mode_force_charge], [set_allow_grid_charging]) returns normally;
    none of them changes the object or touches the network, each only
    writes log records. *)
Theorem null_backend_is_a_noop (w : World Inverter) (mode : string)
    (power : Z) (value : bool) :
  (∃ w', NullInverter.connect_inverter w = (Return true, w') ∧ logs_only w w') ∧
  (∃ w', NullInverter.disconnect_inverter w = (Return true, w') ∧ logs_only w w') ∧
  (∃ w', NullInverter.get_battery_info w = (Return ∅, w') ∧ logs_only w w') ∧
  (∃ w', NullInverter.fetch_inverter_data w = (Return ∅, w') ∧ logs_only w w') ∧
  NullInverter.supports_extended_monitoring w = (Return false, w) ∧
  (∃ w', NullInverter.set_battery_mode mode w = (Return true, w') ∧ logs_only w w') ∧
  (∃ w', NullInverter.set_mode_avoid_discharge w = (Return true, w') ∧ logs_only w w') ∧
  (∃ w', NullInverter.set_mode_allow_discharge w = (Return true, w') ∧ logs_only w w') ∧
  (∃ w', NullInverter.set_mode_force_charge power w = (Return true, w') ∧ logs_only w w') ∧
  (∃ w', NullInverter.set_allow_grid_charging value w = (Return (), w') ∧ logs_only w w') ∧
  (∀ c w', is_control_call c || is_telemetry_call c = true →
           (invoke_null c w).2 = w' → network_io w' = network_io w).
Proof.
  split_and!;
    try (eexists; split; [reflexivity | apply logs_only_one]).
  - reflexivity.
  - intros c w' Hc <-. apply logs_only_no_network.
    destruct c; try discriminate Hc; apply logs_only_one.
Qed.

Lemma null_backend_is_a_noop_witness :
  network_io (invoke_null (SetModeForceCharge 5000) (mkWorld null_inverter [])).2
  = network_io (mkWorld null_inverter []).
Proof.
  apply (proj2 (proj2 (proj2 (proj2 (proj2 (proj2 (proj2 (proj2 (proj2 (proj2
           (null_backend_is_a_noop (mkWorld null_inverter []) "hold" 0 true)))))))))))
    with (c := SetModeForceCharge 5000); reflexivity.
Defined.

(** ** The Victron stub *)

Lemma NotImplementedError_is_no_transport_failure (msg : string) :
  is_transport_failure (mkExn NotImplementedError msg) = false.
Proof. reflexivity. Qed.

Lemma transport_failure_is_not_NotImplementedError (e : Exn) :
  is_transport_failure e = true → catches NotImplementedError e = false.
Proof. destruct e as [[] msg]; vm_compute; congruence. Qed.

(** C9.  On the Victron stub every method of the contract ([initialize],
    [connect_inverter], [disconnect_inverter], [set_battery_mode],
    [set_mode_avoid_discharge], [set_mode_allow_discharge],
    [set_mode_force_charge], [set_allow_grid_charging],
    [get_battery_info], [fetch_inverter_data]) raises
    [NotImplementedError], in every state and without any effect.  The
    error is distinct from a transport failure: a handler for [OSError]
    does not catch it, and a handler for [NotImplementedError] catches no
    transport failure. *)
Theorem victron_signals_unsupported (c : Call) (w : World Inverter) :
  is_contract_method c = true →
  ∃ e, invoke VictronInverter c = Some (invoke_victron c) ∧
       invoke_victron c w = (Raise e, w) ∧
       exn_class e = NotImplementedError ∧
       is_transport_failure e = false ∧
       (∀ e', is_transport_failure e' = true →
              catches NotImplementedError e' = false).
Proof.
  intros Hc. exists (mkExn NotImplementedError "").
  split; [reflexivity |].
  split; [| split; [reflexivity | split; [reflexivity |]]].
  - destruct c; try (vm_compute in Hc; discriminate Hc); reflexivity.
  - apply transport_failure_is_not_NotImplementedError.
Qed.

Lemma victron_signals_unsupported_witness :
  ∃ e, invoke VictronInverter (SetModeForceCharge 3000)
         = Some (invoke_victron (SetModeForceCharge 3000)) ∧
       invoke_victron (SetModeForceCharge 3000) (mkWorld victron_inverter [])
         = (Raise e, mkWorld victron_inverter []) ∧
       exn_class e = NotImplementedError ∧
       is_transport_failure e = false ∧
       (∀ e', is_transport_failure e' = true →
              catches NotImplementedError e' = false).
Proof.
  apply (victron_signals_unsupported (SetModeForceCharge 3000)
           (mkWorld victron_inverter [])).
  reflexivity.
Defined.

(** ** Construction and authentication *)

Lemma abstractmethods_nil (cls : InverterClass) : abstractmethods cls = [].
Proof. destruct cls; reflexivity. Qed.

Lemma implements_contract_all (cls : InverterClass) : implements_contract cls = true.
Proof. destruct cls; reflexivity. Qed.

(** [BaseInverter.__init__] returns as soon as the user is text, and
    what it builds is not authenticated. *)
Lemma base_init_returns (cls : InverterClass) (cfg : gmap string PyVal)
    (t : list Effect) :
  user_is_text cfg →
  ∃ inv r, BaseInverter.__init__ cls cfg (start t)
             = (Return inv, start (t ++ [ELog r])) ∧
           class_of inv = cls ∧ config inv = cfg ∧
           is_authenticated inv = false ∧ session inv = None.
Proof.
  intros [u Hu]. unfold BaseInverter.__init__. unfold_monad. rewrite Hu.
  eexists _, _. split; [reflexivity |]. done.
Qed.

Lemma base_init_unauthenticated (cls : InverterClass) (config : gmap string PyVal)
    (w0 w : World unit) (inv : Inverter) :
  BaseInverter.__init__ cls config w0 = (Return inv, w) →
  is_authenticated inv = false.
Proof.
  unfold BaseInverter.__init__. unfold_monad.
  destruct (dict_get config "user" (VStr "customer")); intros H;
    inversion H; reflexivity.
Qed.

Lemma bind_Return {O A B} (m : M O A) (f : A → M O B) (w w' : World O) (b : B) :
  (m ≫= f) w = (Return b, w') →
  ∃ a w1, m w = (Return a, w1) ∧ f a w1 = (Return b, w').
Proof.
  unfold mbind, M_bind. destruct (m w) as [[a | e] w1]; [eauto | discriminate].
Qed.

Lemma instantiate_unauthenticated (cls : InverterClass) (config : gmap string PyVal)
    (w0 w : World unit) (inv : Inverter) :
  instantiate cls config w0 = (Return inv, w) →
  is_authenticated inv = false.
Proof.
  unfold instantiate. rewrite abstractmethods_nil.
  destruct cls;
    cbn [NullInverter.__init__ VictronInverter.__init__ MockInverter.__init__
         Fronius.__init__];
    try apply base_init_unauthenticated;
    intros H; apply bind_Return in H as (i & w1 & Hbase & Hrest);
    apply base_init_unauthenticated in Hbase;
    revert Hrest; unfold_monad; intros Hrest; inversion Hrest; subst;
    exact Hbase.
Qed.

(** C10.  An instance of any backend class is not authenticated right
    after construction.  On the backends whose methods are in the
    source tree (null, Victron, and the mock of the tests) a call can
    turn [is_authenticated] from [False] to [True] only if it is
    [authenticate], or [initialize] on the null backend; and those two do
    set it. *)
Theorem construction_leaves_unauthenticated :
  (∀ cls config t inv w,
     instantiate cls config (start t) = (Return inv, w) →
     is_authenticated inv = false) ∧
  (∀ cls c body w,
     invoke cls c = Some body →
     is_authenticated (obj w) = false →
     is_authenticated (obj (body w).2) = true →
     c = Authenticate ∨ (cls = NullInverter ∧ c = Initialize)) ∧
  (∀ cls body w,
     invoke cls Authenticate = Some body →
     ∃ w', body w = (Return (VBool true), w') ∧
           is_authenticated (obj w') = true) ∧
  (∀ w, ∃ w', NullInverter.initialize w = (Return (), w') ∧
              is_authenticated (obj w') = true).
Proof.
  split_and!.
  - intros cls config t inv w. apply instantiate_unauthenticated.
  - intros cls c body w Hbody Hbefore Hafter.
    destruct cls; simpl in Hbody; inversion Hbody; subst body; clear Hbody;
      destruct c; simpl in Hafter; auto; congruence.
  - intros cls body w Hbody.
    destruct cls; simpl in Hbody; inversion Hbody; subst body;
      eexists; split; reflexivity.
  - intros w. eexists; split; reflexivity.
Qed.

Lemma construction_leaves_unauthenticated_witness :
  ∃ inv w, instantiate NullInverter null_config_default (start []) = (Return inv, w) ∧
           is_authenticated inv = false.
Proof.
  eexists _, _. split; [reflexivity |].
  eapply (proj1 construction_leaves_unauthenticated
            NullInverter null_config_default []).
  reflexivity.
Defined.

(** C3, as the code has it.  The claim fails: the null backend accepts a
    control call on an object that was never authenticated. *)
Lemma unauthenticated_call_succeeds :
  is_authenticated null_inverter = false ∧
  is_control_call (SetBatteryMode "hold") = true ∧
  ∃ w', run (invoke_null (SetBatteryMode "hold")) null_inverter
          = (Return (VBool true), w') ∧
        is_authenticated (obj w') = false.
Proof. split_and!; [reflexivity..|]. eexists. split; reflexivity. Qed.

(** C3, amended.  The backends in the source tree do not look at
    [is_authenticated] in a control or telemetry call.  While it is
    [False], every such call on the Victron stub raises
    [NotImplementedError], and every such call on the null backend and on
    the mock returns normally, without network I/O; the flag stays
    [False].  There is no "unauthenticated" error. *)
Theorem calls_do_not_check_authentication (cls : InverterClass) (c : Call)
    (body : M Inverter PyVal) (w : World Inverter) :
  invoke cls c = Some body →
  class_of (obj w) = cls →
  is_control_call c || is_telemetry_call c = true →
  is_authenticated (obj w) = false →
  (cls = VictronInverter ∧
   ∃ e, body w = (Raise e, w) ∧ exn_class e = NotImplementedError) ∨
  (cls ≠ VictronInverter ∧
   ∃ v w', body w = (Return v, w') ∧
           is_authenticated (obj w') = false ∧
           network_io w' = network_io w).
Proof.
  intros Hbody _ Hc Hauth.
  destruct cls; simpl in Hbody; inversion Hbody; subst body; clear Hbody.
  - right. split; [discriminate |].
    destruct c; try discriminate Hc;
      (eexists _, _; split_and!;
       [reflexivity | exact Hauth | apply logs_only_no_network, logs_only_one]).
  - left. split; [reflexivity |].
    destruct c; try discriminate Hc; (eexists; split; reflexivity).
  - right. split; [discriminate |].
    destruct c; try discriminate Hc;
      (eexists _, _; split_and!; [reflexivity | exact Hauth | reflexivity]).
Qed.

Lemma calls_do_not_check_authentication_witness :
  (NullInverter = VictronInverter ∧
   ∃ e, invoke_null GetBatteryInfo (mkWorld null_inverter [])
          = (Raise e, mkWorld null_inverter []) ∧
        exn_class e = NotImplementedError) ∨
  (NullInverter ≠ VictronInverter ∧
   ∃ v w', invoke_null GetBatteryInfo (mkWorld null_inverter []) = (Return v, w') ∧
           is_authenticated (obj w') = false ∧
           network_io w' = network_io (mkWorld null_inverter [])).
Proof.
  apply (calls_do_not_check_authentication NullInverter GetBatteryInfo
           (invoke_null GetBatteryInfo) (mkWorld null_inverter []));
    reflexivity.
Defined.

(** ** The discharge helpers *)

(** C1, as the code has it.  The claim fails on the null backend.  The
    class defines [set_mode_avoid_discharge] itself, as the Victron stub
    does, and that body never reaches [set_battery_mode]: the only effect
    of the helper is a log record of its own, where
    [set_battery_mode("hold")] writes the record of [set_battery_mode]. *)
Lemma null_avoid_discharge_is_no_call_through :
  "set_mode_avoid_discharge" ∈ NullInverter.defines ∧
  "set_mode_avoid_discharge" ∈ VictronInverter.defines ∧
  invoke NullInverter SetModeAvoidDischarge = Some (invoke_null SetModeAvoidDischarge) ∧
  invoke NullInverter (SetBatteryMode "hold") = Some (invoke_null (SetBatteryMode "hold")) ∧
  run (invoke_null SetModeAvoidDischarge) null_inverter
    ≠ run (invoke_null (SetBatteryMode "hold")) null_inverter ∧
  trace (run (invoke_null SetModeAvoidDischarge) null_inverter).2
    = [ELog (mkLog LNullInverter DEBUG
               "[NullInverter] set_mode_avoid_discharge() called (no-op)" [])] ∧
  trace (run (invoke_null (SetBatteryMode "hold")) null_inverter).2
    = [ELog (mkLog LNullInverter DEBUG
               "[NullInverter] set_battery_mode(%s) called (no-op)" [VStr "hold"])].
Proof.
  split_and!; try reflexivity; try discriminate;
    unfold NullInverter.defines, VictronInverter.defines; set_solver.
Qed.

(** C1, amended.  On every backend whose methods are in the source tree,
    [set_mode_avoid_discharge()] ends like [set_battery_mode("hold")] and
    [set_mode_allow_discharge()] like [set_battery_mode("normal")]: the
    same return value or the same error, the same state of the object,
    the same network I/O.  [BaseInverter] defines the two helpers once,
    as calls of [self.set_battery_mode], but declares them abstract, so
    each backend defines them again: the mock delegates to the base
    bodies and its runs coincide entirely, the null backend and the
    Victron stub answer by themselves. *)
Theorem discharge_helpers_end_like_set_battery_mode (cls : InverterClass)
    (avoid hold allow normal : M Inverter PyVal) (w : World Inverter) :
  invoke cls SetModeAvoidDischarge = Some avoid →
  invoke cls (SetBatteryMode "hold") = Some hold →
  invoke cls SetModeAllowDischarge = Some allow →
  invoke cls (SetBatteryMode "normal") = Some normal →
  ((avoid w).1 = (hold w).1 ∧ obj (avoid w).2 = obj (hold w).2 ∧
   network_io (avoid w).2 = network_io (hold w).2) ∧
  ((allow w).1 = (normal w).1 ∧ obj (allow w).2 = obj (normal w).2 ∧
   network_io (allow w).2 = network_io (normal w).2) ∧
  (cls = MockInverter → avoid w = hold w ∧ allow w = normal w) ∧
  (∀ self_set_battery_mode,
     BaseInverter.set_mode_avoid_discharge self_set_battery_mode w
       = self_set_battery_mode "hold" w ∧
     BaseInverter.set_mode_allow_discharge self_set_battery_mode w
       = self_set_battery_mode "normal" w) ∧
  ("set_mode_avoid_discharge" ∈ BaseInverter.abstract_methods ∧
   "set_mode_allow_discharge" ∈ BaseInverter.abstract_methods ∧
   "set_mode_avoid_discharge" ∈ defines cls ∧
   "set_mode_allow_discharge" ∈ defines cls).
Proof.
  intros Havoid Hhold Hallow Hnormal.
  assert (Hdefined :
    "set_mode_avoid_discharge" ∈ BaseInverter.abstract_methods ∧
    "set_mode_allow_discharge" ∈ BaseInverter.abstract_methods ∧
    "set_mode_avoid_discharge" ∈ defines cls ∧
    "set_mode_allow_discharge" ∈ defines cls).
  { unfold BaseInverter.abstract_methods.
    destruct cls; cbn [defines];
      unfold NullInverter.defines, VictronInverter.defines,
        MockInverter.defines, Fronius.defines; set_solver. }
  destruct cls; simpl in Havoid, Hhold, Hallow, Hnormal;
    inversion Havoid; inversion Hhold; inversion Hallow; inversion Hnormal;
    subst; clear Havoid Hhold Hallow Hnormal;
    (split_and!;
     [| | | | | | intros Hcls; try discriminate Hcls; split | intros f; split
      | apply Hdefined | apply Hdefined | apply Hdefined | apply Hdefined]);
    try reflexivity;
    (transitivity (network_io w); [| symmetry]);
    apply logs_only_no_network, logs_only_one.
Qed.

Lemma discharge_helpers_end_like_set_battery_mode_witness :
  let w := mkWorld null_inverter [] in
  ((invoke_null SetModeAvoidDischarge w).1 = (invoke_null (SetBatteryMode "hold") w).1 ∧
   obj (invoke_null SetModeAvoidDischarge w).2
     = obj (invoke_null (SetBatteryMode "hold") w).2 ∧
   network_io (invoke_null SetModeAvoidDischarge w).2
     = network_io (invoke_null (SetBatteryMode "hold") w).2).
Proof.
  intros w.
  apply (discharge_helpers_end_like_set_battery_mode NullInverter
           (invoke_null SetModeAvoidDischarge)
           (invoke_null (SetBatteryMode "hold"))
           (invoke_null SetModeAllowDischarge)
           (invoke_null (SetBatteryMode "normal")) w); reflexivity.
Defined.

(** ** Forced charging *)

(** C4, as the code has it.  The claim fails on both backends of the
    source tree.  With both ceilings configured, the Victron stub answers
    a request above the ceiling with an error, and the null backend,
    asked for exactly the ceiling, sends nothing at all. *)
Lemma force_charge_is_not_capped :
  (max_grid_charge_rate victron_inverter = VInt 10000 ∧
   max_pv_charge_rate victron_inverter = VInt 15000 ∧
   run (invoke_victron (SetModeForceCharge 20000)) victron_inverter
     = (Raise (mkExn NotImplementedError ""), mkWorld victron_inverter [])) ∧
  (max_grid_charge_rate null_inverter = VInt 5000 ∧
   max_pv_charge_rate null_inverter = VInt 5000 ∧
   network_io (run (invoke_null (SetModeForceCharge 5000)) null_inverter).2 = []).
Proof. split_and!; reflexivity. Qed.

(** C4, amended.  The backends of the source tree never send a power
    value above [min(grid ceiling, PV ceiling)] to a device, because
    [set_mode_force_charge] sends nothing: for every requested power and
    whatever the ceilings are, the null backend logs the request as it
    was given, returns [True] and leaves object and network alone, and
    the Victron stub raises [NotImplementedError]. *)
Theorem force_charge_sends_nothing (power : Z) (w : World Inverter) :
  NullInverter.set_mode_force_charge power w
    = (Return true,
       mkWorld (obj w)
         (trace w ++
          [ELog (mkLog LNullInverter DEBUG
                   "[NullInverter] set_mode_force_charge(%d W) called (no-op)"
                   [VInt power])])) ∧
  network_io (NullInverter.set_mode_force_charge power w).2 = network_io w ∧
  VictronInverter.set_mode_force_charge power w
    = (Raise (mkExn NotImplementedError ""), w).
Proof.
  split_and!; [reflexivity | | reflexivity].
  apply logs_only_no_network, logs_only_one.
Qed.

(** ** The factory *)

Lemma append_assoc (s1 s2 s3 : string) :
  (s1 +:+ s2) +:+ s3 = s1 +:+ (s2 +:+ s3).
Proof.
  induction s1 as [| c s1 IH]; [reflexivity | exact (f_equal (String c) IH)].
Qed.

Lemma append_nil_r (s : string) : s +:+ "" = s.
Proof.
  induction s as [| c s IH]; [reflexivity | exact (f_equal (String c) IH)].
Qed.

Lemma occurs_in_refl (k : string) : occurs_in k k.
Proof. exists "", "". change ("" +:+ k +:+ "") with (k +:+ ""). by rewrite append_nil_r. Qed.

Lemma occurs_in_app_l (k p s : string) : occurs_in k s → occurs_in k (p +:+ s).
Proof.
  intros (pre & post & ->). exists (p +:+ pre), post. by rewrite append_assoc.
Qed.

Lemma occurs_in_app_r (k p s : string) : occurs_in k s → occurs_in k (s +:+ p).
Proof.
  intros (pre & post & ->). exists pre, (post +:+ p).
  by rewrite !append_assoc.
Qed.

Lemma join_cons (sep p q : string) (rest : list string) :
  join sep (p :: q :: rest) = p +:+ sep +:+ join sep (q :: rest).
Proof. reflexivity. Qed.

(** Every part occurs in the joined string. *)
Lemma join_occurs (sep k : string) (parts : list string) :
  k ∈ parts → occurs_in k (join sep parts).
Proof.
  induction parts as [| p [| q rest] IH]; intros Hin.
  - by apply elem_of_nil in Hin.
  - apply list_elem_of_singleton in Hin as ->. apply occurs_in_refl.
  - rewrite join_cons. apply elem_of_cons in Hin as [<- | Hin].
    + apply occurs_in_app_r, occurs_in_refl.
    + apply occurs_in_app_l, occurs_in_app_l, IH, Hin.
Qed.

Lemma bind_mret {O A B} (a : A) (f : A → M O B) (w : World O) :
  (mret a ≫= f) w = f a w.
Proof. reflexivity. Qed.

Lemma bind_Return_eq {O A B} (m : M O A) (f : A → M O B) (w w1 : World O) (a : A) :
  m w = (Return a, w1) → (m ≫= f) w = f a w1.
Proof. intros H. unfold mbind, M_bind. by rewrite H. Qed.

(** With a textual user every class can be instantiated; the new object
    is of that class and keeps the configuration it was given. *)
Lemma instantiate_returns (cls : InverterClass) (cfg : gmap string PyVal)
    (t : list Effect) :
  user_is_text cfg →
  ∃ inv w, instantiate cls cfg (start t) = (Return inv, w) ∧
           class_of inv = cls ∧ config inv = cfg ∧
           ∃ records, trace w = t ++ map ELog records.
Proof.
  intros Huser.
  destruct (base_init_returns cls cfg t Huser) as (inv & r & Hbase & Hcls & Hcfg & _).
  unfold instantiate. rewrite abstractmethods_nil.
  destruct cls;
    try unfold NullInverter.__init__; try unfold VictronInverter.__init__;
    try unfold MockInverter.__init__; try unfold Fronius.__init__;
    try (exists inv; eexists; split; [exact Hbase |];
         split_and!; [done | done | by exists [r]]);
    rewrite (bind_Return_eq _ _ _ _ _ Hbase); unfold_monad; cbn [obj trace start];
    eexists _, _; (split; [reflexivity |]); (split_and!; [done | done |]).
  - eexists [r; _]. by rewrite <- app_assoc.
  - by exists [r].
  - by exists [r].
Qed.

(** C2, as the code has it.  The claim fails for a configuration whose
    type is registered and whose user is not text: the class is found,
    and its constructor ends in [AttributeError] on [None.lower()]. *)
Lemma registered_type_without_instance :
  registry_get (lower "victron") INVERTER_TYPES = Some VictronInverter ∧
  ∃ e r,
    create_inverter {[ "type" := VStr "victron"; "user" := VNone ]} (start [])
      = (Raise e, start [ELog r]) ∧
    exn_class e = AttributeError ∧
    exn_msg e = "'NoneType' object has no attribute 'lower'".
Proof. split; [reflexivity |]. eexists _, _. split_and!; reflexivity. Qed.

(** C2, amended.  Let the configuration give the type as text [t].  If
    [t], lowered, is a key of the active tier and the user is missing or
    text, [create_inverter] returns an instance of the class registered
    there, which implements the full contract, and logs the creation at
    level INFO; the legacy tier has no say: replacing it by any other
    table gives the same result.  Otherwise, if it is a key of the
    legacy tier and the user is missing or text, [create_inverter]
    returns an instance of the class registered there and logs a
    warning.  If it is a key of neither tier, [create_inverter] raises
    [ValueError], whatever the rest of the configuration holds; it
    creates and logs nothing, and the message names the type in lower
    case (for ASCII text: [lower t]) and then lists every key of the
    active tier and every key of the legacy tier. *)
Theorem create_inverter_dispatches (cfg : gmap string PyVal) (t : string)
    (tr : list Effect) :
  dict_get cfg "type" (VStr "") = VStr t →
  (∀ cls, registry_get (lower t) INVERTER_TYPES = Some cls →
     user_is_text cfg →
     implements_contract cls = true ∧
     (∃ inv w records,
        create_inverter cfg (start tr) = (Return inv, w) ∧
        class_of inv = cls ∧ config inv = cfg ∧
        trace w = tr ++ ELog (mkLog LFactory INFO
                                "[Factory] Creating modern inverter '%s' (%s)"
                                [VStr (lower t); VStr (class_name cls)])
                     :: map ELog records) ∧
     (∀ legacy, create_inverter_from INVERTER_TYPES legacy cfg (start tr)
                = create_inverter cfg (start tr))) ∧
  (registry_get (lower t) INVERTER_TYPES = None →
   ∀ cls, registry_get (lower t) LEGACY_INVERTER_TYPES = Some cls →
     user_is_text cfg →
     implements_contract cls = true ∧
     (∃ inv w msg records,
        create_inverter cfg (start tr) = (Return inv, w) ∧
        class_of inv = cls ∧ config inv = cfg ∧
        trace w = tr ++ ELog (mkLog LFactory WARNING msg
                                [VStr (lower t); VStr (class_name cls)])
                     :: map ELog records)) ∧
  (registry_get (lower t) INVERTER_TYPES = None →
   registry_get (lower t) LEGACY_INVERTER_TYPES = None →
   ∃ msg shown,
     create_inverter cfg (start tr)
       = (Raise (mkExn ValueError msg), start tr) ∧
     msg = "Unknown inverter type: '" +:+ shown +:+ "'. Supported types: "
           +:+ join ", " (registry_keys INVERTER_TYPES
                          ++ registry_keys LEGACY_INVERTER_TYPES) ∧
     (is_ascii t = true → shown = lower t) ∧
     ∀ key, key ∈ registry_keys INVERTER_TYPES
                  ++ registry_keys LEGACY_INVERTER_TYPES →
            occurs_in key msg).
Proof.
  intros Htype.
  unfold create_inverter.
  split_and!.
  - intros cls Hactive Huser. split; [apply implements_contract_all |].
    split.
    + unfold create_inverter_from. rewrite Htype. cbn [str_lower].
      rewrite bind_mret, Hactive.
      destruct (instantiate_returns cls cfg
                  (tr ++ [ELog (mkLog LFactory INFO
                                  "[Factory] Creating modern inverter '%s' (%s)"
                                  [VStr (lower t); VStr (class_name cls)])])
                  Huser) as (inv & w & Hinst & Hcls & Hcfg & records & Htrace).
      exists inv, w, records.
      split_and!; [exact Hinst | exact Hcls | exact Hcfg |].
      rewrite Htrace. by rewrite <- app_assoc.
    + intros legacy'. unfold create_inverter_from. rewrite Htype.
      cbn [str_lower]. by rewrite !bind_mret, Hactive.
  - intros Hactive cls Hlegacy Huser. split; [apply implements_contract_all |].
    unfold create_inverter_from. rewrite Htype. cbn [str_lower].
    rewrite bind_mret, Hactive, Hlegacy.
    match goal with
    | |- context [logger_log LFactory WARNING ?m ?a] =>
        destruct (instantiate_returns cls cfg
                    (tr ++ [ELog (mkLog LFactory WARNING m a)]) Huser)
          as (inv & w & Hinst & Hcls & Hcfg & records & Htrace);
        exists inv, w, m, records
    end.
    split_and!; [exact Hinst | exact Hcls | exact Hcfg |].
    rewrite Htrace. by rewrite <- app_assoc.
  - intros Hactive Hlegacy.
    unfold create_inverter_from. rewrite Htype. cbn [str_lower].
    rewrite bind_mret, Hactive, Hlegacy.
    eexists _, (lower t). split; [reflexivity |]. split_and!.
    + reflexivity.
    + reflexivity.
    + intros key Hkey. do 4 apply occurs_in_app_l. by apply join_occurs.
Qed.

Lemma create_inverter_dispatches_witness :
  implements_contract NullInverter = true ∧
  ∃ inv w records,
    create_inverter (<["type" := VStr "Default"]> null_config_default) (start [])
      = (Return inv, w) ∧
    class_of inv = NullInverter ∧
    config inv = <["type" := VStr "Default"]> null_config_default ∧
    trace w = [] ++ ELog (mkLog LFactory INFO
                            "[Factory] Creating modern inverter '%s' (%s)"
                            [VStr (lower "Default"); VStr (class_name NullInverter)])
                 :: map ELog records.
Proof.
  assert (Htype : dict_get (<["type" := VStr "Default"]> null_config_default)
                    "type" (VStr "") = VStr "Default") by reflexivity.
  assert (Huser : user_is_text (<["type" := VStr "Default"]> null_config_default))
    by (by exists "customer").
  destruct (create_inverter_dispatches
              (<["type" := VStr "Default"]> null_config_default) "Default" []
              Htype) as [Hactive _].
  destruct (Hactive NullInverter eq_refl Huser) as (Hcontract & Hreturns & _).
  exact (conj Hcontract Hreturns).
Defined.


Lemma base_init_user_not_text (cls : InverterClass) (cfg : gmap string PyVal)
    (w0 : World unit) :
  ¬ user_is_text cfg →
  ∃ e, BaseInverter.__init__ cls cfg w0 = (Raise e, w0) ∧
       exn_class e = AttributeError.
Proof.
  intros Huser. unfold BaseInverter.__init__. unfold_monad.
  destruct (dict_get cfg "user" (VStr "customer")) eqn:Hget;
    try (eexists; split; reflexivity).
  destruct Huser. by eexists.
Qed.


(** An unknown type: the message of the error, in full. *)
Example create_inverter_unknown_type :
  create_inverter {[ "type" := VStr "Solax" ]} (start [])
  = (Raise (mkExn ValueError
       ("Unknown inverter type: 'solax'. Supported types: victron, " +:+
        "fronius_gen24, evcc, default, fronius_gen24_legacy, fronius_gen24_v2")),
     start []).
Proof. reflexivity. Qed.

(** ** The telemetry normalizer *)

(** C5.  Applied to a mapping, [strip_dict] returns a mapping without any
    key that starts with an underscore, in which every other key has the
    value it had; applied to anything else (a string, a number, [None])
    it returns its argument. *)
Theorem strip_dict_keeps_public_fields :
  (∀ d : gmap string PyVal,
     ∃ d' : gmap string PyVal,
       strip_dict (VDict d) = VDict d' ∧
       (∀ key, is_internal_key key = true → d' !! key = None) ∧
       (∀ key, is_internal_key key = false → d' !! key = d !! key)) ∧
  (∀ v, is_dict v = false → strip_dict v = v).
Proof.
  split.
  - intros d. eexists. split; [reflexivity |]. split; intros key Hkey.
    + apply map_lookup_filter_None. right. intros x _. simpl. congruence.
    + destruct (d !! key) as [x |] eqn:Hlookup.
      * by apply map_lookup_filter_Some.
      * apply map_lookup_filter_None. by left.
  - intros [] Hv; try reflexivity. discriminate Hv.
Qed.

Lemma strip_dict_keeps_public_fields_witness :
  strip_dict (VStr "string") = VStr "string" ∧
  strip_dict (VInt 123) = VInt 123 ∧
  strip_dict VNone = VNone.
Proof.
  split_and!; apply (proj2 strip_dict_keeps_public_fields); reflexivity.
Defined.

(** The dictionary of the two [test_strip_dict_removes_underscore_keys]. *)
Example strip_dict_test :
  strip_dict (VDict {[ "key" := VStr "value"; "_private" := VStr "hidden";
                       "public" := VStr "visible" ]})
  = VDict {[ "key" := VStr "value"; "public" := VStr "visible" ]}.
Proof. reflexivity. Qed.

(** ** The hash helpers *)

Section DigestLength.
Import Digest.

Lemma length_append (s1 s2 : string) :
  String.length (s1 +:+ s2) = (String.length s1 + String.length s2)%nat.
Proof.
  induction s1 as [| c s1 IH]; [reflexivity |].
  change (S (String.length (s1 +:+ s2))
          = S (String.length s1 + String.length s2)%nat).
  by rewrite IH.
Qed.

Lemma hexdigest_length (bs : list Z) :
  String.length (hexdigest bs) = (2 * length bs)%nat.
Proof.
  induction bs as [| b bs IH]; [reflexivity |].
  change (hexdigest (b :: bs)) with (hex_byte b +:+ hexdigest bs).
  rewrite length_append, IH. simpl. lia.
Qed.

Lemma all_hex_append (s1 s2 : string) :
  all_hex (s1 +:+ s2) = all_hex s1 && all_hex s2.
Proof.
  induction s1 as [| c s1 IH]; [reflexivity |].
  change (is_hex_char c && all_hex (s1 +:+ s2)
          = is_hex_char c && all_hex s1 && all_hex s2).
  by rewrite IH, andb_assoc.
Qed.

Lemma hex_digit_is_hex (n : Z) :
  0 ≤ n < 16 → is_hex_char (hex_digit n) = true.
Proof.
  intros Hn.
  assert (Hk : ∃ k : nat, (k < 16)%nat ∧ n = Z.of_nat k).
  { exists (Z.to_nat n). lia. }
  destruct Hk as (k & Hk & ->).
  do 16 (destruct k as [| k]; [reflexivity |]). lia.
Qed.

Lemma hexdigest_all_hex (bs : list Z) : all_hex (hexdigest bs) = true.
Proof.
  induction bs as [| b bs IH]; [reflexivity |].
  change (hexdigest (b :: bs)) with (hex_byte b +:+ hexdigest bs).
  rewrite all_hex_append, IH, andb_true_r.
  unfold hex_byte. cbn [all_hex].
  rewrite !hex_digit_is_hex; [reflexivity | |]; apply Z.mod_pos_bound; lia.
Qed.

Lemma le_bytes_length (k : nat) (x : Z) : length (le_bytes k x) = k.
Proof.
  revert x. induction k as [| k IH]; intros x; [reflexivity |].
  simpl. by rewrite IH.
Qed.

Lemma be_bytes_length (k : nat) (x : Z) : length (be_bytes k x) = k.
Proof. unfold be_bytes. by rewrite length_rev, le_bytes_length. Qed.

(** The MD5 digest has 16 bytes, whatever the message. *)
Lemma md5_length (msg : list Byte.byte) : length (md5 msg) = 16%nat.
Proof.
  unfold md5.
  destruct (fold_left md5_block _ md5_init) as [[[a b] c] d].
  by rewrite !length_app, !le_bytes_length.
Qed.

Lemma sha256_step_length (st : list Z) (kw : Z * Z) :
  length st = 8%nat → length (sha256_step st kw) = 8%nat.
Proof.
  intros Hst.
  do 9 (destruct st as [| ? st]; try discriminate Hst). reflexivity.
Qed.

(** A property every step keeps holds after the whole fold. *)
Lemma fold_left_keeps {A B} (P : A → Prop) (f : A → B → A) (l : list B) (a : A) :
  (∀ a b, P a → P (f a b)) → P a → P (fold_left f l a).
Proof.
  intros Hstep. revert a.
  induction l as [| b l IH]; intros a Ha; [exact Ha |].
  simpl. apply IH, Hstep, Ha.
Qed.

Lemma sha256_block_length (st m : list Z) :
  length st = 8%nat → length (sha256_block st m) = 8%nat.
Proof.
  intros Hst. unfold sha256_block.
  rewrite length_zip_with, Hst.
  rewrite (fold_left_keeps (λ s, length s = 8%nat)); auto.
  intros; by apply sha256_step_length.
Qed.

Lemma flat_map_be_bytes_length (ws : list Z) :
  length (flat_map (be_bytes 4) ws) = (4 * length ws)%nat.
Proof.
  induction ws as [| x ws IH]; [reflexivity |].
  cbn [flat_map]. rewrite length_app, be_bytes_length, IH. simpl. lia.
Qed.

(** The SHA-256 digest has 32 bytes, whatever the message. *)
Lemma sha256_length (msg : list Byte.byte) : length (sha256 msg) = 32%nat.
Proof.
  unfold sha256. rewrite flat_map_be_bytes_length.
  rewrite (fold_left_keeps (λ s, length s = 8%nat)); auto.
  intros; by apply sha256_block_length.
Qed.

End DigestLength.

(** The digests of "test", of the empty text and of a text longer than
    one block, as [hashlib] gives them. *)
Example md5_test_vectors :
  hash_utf8 (Text "test") = "098f6bcd4621d373cade4e832627b4f6" ∧
  hash_utf8_md5 (Bytes (list_byte_of_string "test")) = "098f6bcd4621d373cade4e832627b4f6" ∧
  hash_utf8_md5 (Text "") = "d41d8cd98f00b204e9800998ecf8427e" ∧
  hash_utf8_md5 (Text ("1234567890123456789012345678901234567890" +:+
                       "1234567890123456789012345678901234567890"))
    = "57edf4a22be3c955ac49da2e2107b67a".
Proof. vm_compute. done. Qed.

Example sha256_test_vectors :
  hash_utf8_sha256 (Text "test")
    = "9f86d081884c7d659a2feaa0c55ad015a3bf4f1b2b0b822cd15d6c15b0f00a08" ∧
  hash_utf8_sha256 (Text "")
    = "e3b0c44298fc1c149afbf4c8996fb92427ae41e4649b934ca495991b7852b855" ∧
  hash_utf8_sha256 (Text ("1234567890123456789012345678901234567890" +:+
                          "1234567890123456789012345678901234567890"))
    = "f371bc4a311f2b009eef952dd83ca80e2b60026c8e935592d0f9c308453c813e".
Proof. vm_compute. done. Qed.

(** C7.  The hash helpers are functions of the bytes of their argument:
    text and bytes with the same UTF-8 encoding have the same digest.
    For every argument the digest of the legacy algorithm has exactly 32
    characters and that of the modern algorithm exactly 64, all of them
    hexadecimal digits.  The helpers are plain functions: they run in no
    monad and have no effect, on the network or elsewhere. *)
Theorem hash_helpers_give_fixed_length_hex (x : HashInput) :
  (String.length (hash_utf8 x) = 32%nat ∧ all_hex (hash_utf8 x) = true) ∧
  (String.length (hash_utf8_md5 x) = 32%nat ∧ all_hex (hash_utf8_md5 x) = true) ∧
  (String.length (hash_utf8_sha256 x) = 64%nat ∧
   all_hex (hash_utf8_sha256 x) = true) ∧
  (∀ y, encode_utf8 y = encode_utf8 x →
        hash_utf8 y = hash_utf8 x ∧
        hash_utf8_md5 y = hash_utf8_md5 x ∧
        hash_utf8_sha256 y = hash_utf8_sha256 x).
Proof.
  unfold hash_utf8, hash_utf8_md5, hash_utf8_sha256.
  split_and!;
    try apply hexdigest_all_hex;
    try (by rewrite hexdigest_length, md5_length);
    try (by rewrite hexdigest_length, sha256_length).
  intros y Hy. by rewrite Hy.
Qed.

Lemma hash_helpers_give_fixed_length_hex_witness :
  hash_utf8 (Bytes (list_byte_of_string "test")) = hash_utf8 (Text "test") ∧
  hash_utf8_md5 (Bytes (list_byte_of_string "test")) = hash_utf8_md5 (Text "test") ∧
  hash_utf8_sha256 (Bytes (list_byte_of_string "test"))
    = hash_utf8_sha256 (Text "test").
Proof.
  apply (proj2 (proj2 (proj2 (hash_helpers_give_fixed_length_hex (Text "test"))))).
  reflexivity.
Defined.

(** ** The authentication session *)

Section Session.
Import Fronius.

(** An authenticated request carries the current counter and leaves a
    counter that is larger by one. *)
Lemma authenticated_request_counts (method path : string)
    (w : World Inverter) (s : AuthenticationSession) :
  session (obj w) = Some s →
  ∃ h, authenticated_request method path w
         = (Return (ncvalue_num s),
            mkWorld (set_session (Some (with_counter (ncvalue_num s + 1) s)) (obj w))
                    (trace w ++ [EHttp method path (Some h)])) ∧
       h_nc h = ncvalue_num s.
Proof.
  intros Hs. eexists.
  unfold authenticated_request, update_session, get_session. unfold_monad.
  repeat (progress (cbn [session set_session obj trace]; rewrite ?Hs)).
  split; reflexivity.
Qed.

(** A login the server accepts, below the cap. *)
Lemma authenticate_accepted (cap : Z) (method path : string)
    (w : World Inverter) (s : AuthenticationSession) :
  session (obj w) = Some s →
  login_attempts s + 1 ≤ cap →
  ∃ h, authenticate cap method path Accepted w
         = (Return true,
            mkWorld
              (set_is_authenticated true
                 (set_session
                    (Some {| nonce := nonce s;
                             ncvalue_num := ncvalue_num s + 1;
                             algorithm := algorithm s;
                             subsequent_login := true;
                             login_attempts := 0 |})
                    (obj w)))
              (trace w ++ [EHttp method path (Some h)])) ∧
       h_nc h = ncvalue_num s.
Proof.
  intros Hs Hcap. eexists.
  unfold authenticate, authenticated_request, update_session, get_session.
  unfold_monad. cbn [obj trace]. rewrite Hs.
  destruct (cap <? login_attempts s + 1) eqn:Hlt; [lia |].
  repeat (progress (cbn [session set_session set_is_authenticated obj trace];
                    rewrite ?Hs)).
  split; reflexivity.
Qed.

Lemma counters_sent_app (t1 t2 : list Effect) :
  counters_sent (t1 ++ t2) = counters_sent t1 ++ counters_sent t2.
Proof. apply omap_app. Qed.

End Session.

Lemma fronius_init_fresh (cls : InverterClass) (cfg : gmap string PyVal)
    (t : list Effect) :
  cls = FroniusV2 ∨ cls = FroniusLegacy →
  user_is_text cfg →
  ∃ inv w, instantiate cls cfg (start t) = (Return inv, w) ∧
           session inv
             = Some (Fronius.fresh_session (Fronius.default_algorithm cls)) ∧
           is_authenticated inv = false.
Proof.
  intros Hcls Huser.
  destruct (base_init_returns cls cfg t Huser) as (inv & r & Hbase & _ & _ & Hauth & _).
  unfold instantiate. rewrite abstractmethods_nil.
  destruct Hcls as [-> | ->]; unfold Fronius.__init__;
    rewrite (bind_Return_eq _ _ _ _ _ Hbase); unfold_monad;
    eexists _, _; (split; [reflexivity |]); (split; [reflexivity | exact Hauth]).
Qed.

(** C8.  A Fronius backend starts with a fresh session: the nonce-use
    counter is 1, the login is a first login ([subsequent_login] is
    [False]) and no login has been attempted.  When it then authenticates
    twice in a row and the server accepts both times, the first request
    carries the counter 1 and the second the counter 2, and after the
    first success the login is no longer a first login.  In any state of
    the session an authenticated request carries the current counter and
    leaves it larger by one. *)
Theorem two_logins_on_a_fresh_session (cls : InverterClass)
    (cfg : gmap string PyVal) (cap : Z) (method path : string) :
  cls = FroniusV2 ∨ cls = FroniusLegacy →
  user_is_text cfg →
  1 ≤ cap →
  (∃ inv w0 s0,
     instantiate cls cfg (start []) = (Return inv, w0) ∧
     session inv = Some s0 ∧
     ncvalue_num s0 = 1 ∧ subsequent_login s0 = false ∧ login_attempts s0 = 0 ∧
     ∃ w1 s1 w2 s2 h1 h2,
       Fronius.authenticate cap method path Fronius.Accepted (mkWorld inv [])
         = (Return true, w1) ∧
       session (obj w1) = Some s1 ∧
       subsequent_login s1 = true ∧ login_attempts s1 = 0 ∧
       Fronius.authenticate cap method path Fronius.Accepted w1
         = (Return true, w2) ∧
       session (obj w2) = Some s2 ∧
       trace w2 = [EHttp method path (Some h1); EHttp method path (Some h2)] ∧
       h_nc h1 = 1 ∧ h_nc h2 = 2 ∧ h_nc h1 < h_nc h2 ∧
       ncvalue_num s0 < ncvalue_num s1 < ncvalue_num s2) ∧
  (∀ (w : World Inverter) (s : AuthenticationSession),
     session (obj w) = Some s →
     ∃ w' s', Fronius.authenticated_request method path w
                = (Return (ncvalue_num s), w') ∧
              session (obj w') = Some s' ∧
              ncvalue_num s' = ncvalue_num s + 1 ∧
              counters_sent (trace w') = counters_sent (trace w) ++ [ncvalue_num s]).
Proof.
  intros Hcls Huser Hcap. split.
  - destruct (fronius_init_fresh cls cfg [] Hcls Huser) as (inv & w0 & Hinit & Hs0 & _).
    exists inv, w0, (Fronius.fresh_session (Fronius.default_algorithm cls)).
    split_and!; [exact Hinit | exact Hs0 | reflexivity..|].
    destruct (authenticate_accepted cap method path (mkWorld inv []) _ Hs0)
      as (h1 & Hfirst & Hnc1); [simpl; lia |].
    match type of Hfirst with _ = (_, ?w) => set (w1 := w) in * end.
    destruct (authenticate_accepted cap method path w1 _ eq_refl)
      as (h2 & Hsecond & Hnc2); [simpl; lia |].
    match type of Hsecond with _ = (_, ?w) => set (w2 := w) in * end.
    eexists w1, _, w2, _, h1, h2.
    split_and!; [exact Hfirst | reflexivity | reflexivity | reflexivity
                | exact Hsecond | reflexivity | reflexivity
                | exact Hnc1 | exact Hnc2 | rewrite Hnc1, Hnc2; reflexivity
                | simpl; lia | simpl; lia].
  - intros w s Hs.
    destruct (authenticated_request_counts method path w s Hs)
      as (h & Hreq & Hnc).
    eexists _, _. split_and!; [exact Hreq | reflexivity | reflexivity |].
    cbn [trace]. rewrite counters_sent_app. cbn. by rewrite Hnc.
Qed.

Lemma two_logins_on_a_fresh_session_witness :
  ∃ inv w0 s0,
    instantiate FroniusV2 fronius_v2_config (start []) = (Return inv, w0) ∧
    session inv = Some s0 ∧
    ncvalue_num s0 = 1 ∧ subsequent_login s0 = false ∧ login_attempts s0 = 0.
Proof.
  assert (Hcls : FroniusV2 = FroniusV2 ∨ FroniusV2 = FroniusLegacy)
    by (left; reflexivity).
  assert (Huser : user_is_text fronius_v2_config)
    by (exists "customer"; reflexivity).
  assert (Hcap : 1 ≤ 3) by lia.
  destruct (proj1 (two_logins_on_a_fresh_session FroniusV2 fronius_v2_config 3
                     "GET" "/login" Hcls Huser Hcap))
    as (inv & w0 & s0 & Hinit & Hs0 & Hnc & Hfirst & Hattempts & _).
  exists inv, w0, s0. split_and!; assumption.
Defined.

(** Beyond the cap [authenticate] raises and sends nothing. *)
Lemma authenticate_beyond_the_cap (cap : Z) (method path : string)
    (reply : Fronius.ServerReply) (w : World Inverter) (s : AuthenticationSession) :
  session (obj w) = Some s →
  cap < login_attempts s + 1 →
  ∃ e, Fronius.authenticate cap method path reply w = (Raise e, w) ∧
       exn_class e = AuthenticationError.
Proof.
  intros Hs Hcap. eexists.
  unfold Fronius.authenticate, Fronius.get_session. unfold_monad. rewrite Hs.
  destruct (cap <? login_attempts s + 1) eqn:Hlt; [| lia].
  split; reflexivity.
Qed.

(** A stale nonce restarts the counter and makes the next login a first
    login again. *)
Lemma authenticate_stale_nonce (cap : Z) (method path fresh_nonce : string)
    (w : World Inverter) (s : AuthenticationSession) :
  session (obj w) = Some s →
  login_attempts s + 1 ≤ cap →
  ∃ w' s', Fronius.authenticate cap method path (Fronius.StaleNonce fresh_nonce) w
             = (Return false, w') ∧
           session (obj w') = Some s' ∧
           nonce s' = Some fresh_nonce ∧ ncvalue_num s' = 1 ∧
           subsequent_login s' = false ∧ is_authenticated (obj w') = false.
Proof.
  intros Hs Hcap.
  unfold Fronius.authenticate, Fronius.authenticated_request,
    Fronius.update_session, Fronius.get_session.
  unfold_monad. cbn [obj trace]. rewrite Hs.
  destruct (cap <? login_attempts s + 1) eqn:Hlt; [lia |].
  repeat (progress (cbn [session set_session set_is_authenticated obj trace];
                    rewrite ?Hs)).
  eexists _, _. split_and!; reflexivity.
Qed.

(** * Further properties of the code *)

(** ** What the constructor stores *)



Lemma lower_length (s : string) : String.length (lower s) = String.length s.
Proof. induction s as [| c s IH]; [reflexivity |]. cbn. by rewrite IH. Qed.





(** ** What the factory returns *)

Lemma emit_then {O A} (e : Effect) (m : M O A) (w : World O) :
  (emit e ;; m) w = m (mkWorld (obj w) (trace w ++ [e])).
Proof. reflexivity. Qed.




(** The three ways [create_inverter] goes on once the type is text. *)
Lemma create_inverter_unfold (cfg : gmap string PyVal) (t : string)
    (w0 : World unit) :
  dict_get cfg "type" (VStr "") = VStr t →
  create_inverter cfg w0
  = match registry_get (lower t) INVERTER_TYPES with
    | Some cls =>
        instantiate cls cfg
          (mkWorld (obj w0)
             (trace w0 ++
              [ELog (mkLog LFactory INFO
                       "[Factory] Creating modern inverter '%s' (%s)"
                       [VStr (lower t); VStr (class_name cls)])]))
    | None =>
        match registry_get (lower t) LEGACY_INVERTER_TYPES with
        | Some cls =>
            instantiate cls cfg
              (mkWorld (obj w0)
                 (trace w0 ++
                  [ELog (mkLog LFactory WARNING
                           ("[Factory] Creating legacy inverter '%s' (%s). " +:+
                            "Consider updating to a modern type for future compatibility.")
                           [VStr (lower t); VStr (class_name cls)])]))
        | None =>
            (Raise (mkExn ValueError
                      ("Unknown inverter type: '" +:+ lower t +:+
                       "'. Supported types: victron, fronius_gen24, evcc, " +:+
                       "default, fronius_gen24_legacy, fronius_gen24_v2")),
             w0)
        end
    end.
Proof.
  intros Htype. unfold create_inverter, create_inverter_from.
  rewrite Htype. cbn [str_lower]. rewrite bind_mret.
  destruct (registry_get (lower t) INVERTER_TYPES); [reflexivity |].
  destruct (registry_get (lower t) LEGACY_INVERTER_TYPES); reflexivity.
Qed.



(** X3.  Only the lower-case form of the type decides.  Two
    configurations whose types differ at most in the case of their
    letters (and whose users are text) end alike: either both are
    refused with the same [ValueError], nothing created or logged, or
    both yield an instance, and the two are of the same class. *)
Theorem create_inverter_ignores_case (cfg1 cfg2 : gmap string PyVal)
    (t1 t2 : string) (tr : list Effect) :
  dict_get cfg1 "type" (VStr "") = VStr t1 →
  dict_get cfg2 "type" (VStr "") = VStr t2 →
  lower t1 = lower t2 →
  user_is_text cfg1 →
  user_is_text cfg2 →
  (∃ inv1 inv2 w1 w2,
     create_inverter cfg1 (start tr) = (Return inv1, w1) ∧
     create_inverter cfg2 (start tr) = (Return inv2, w2) ∧
     class_of inv1 = class_of inv2) ∨
  (∃ e, create_inverter cfg1 (start tr) = (Raise e, start tr) ∧
        create_inverter cfg2 (start tr) = (Raise e, start tr) ∧
        exn_class e = ValueError).
Proof.
  intros Ht1 Ht2 Hlower Hu1 Hu2.
  rewrite (create_inverter_unfold cfg1 t1 _ Ht1),
          (create_inverter_unfold cfg2 t2 _ Ht2), Hlower.
  destruct (registry_get (lower t2) INVERTER_TYPES) as [cls |];
    [| destruct (registry_get (lower t2) LEGACY_INVERTER_TYPES) as [cls |]].
  - left.
    edestruct (instantiate_returns cls cfg1) as (i1 & w1 & -> & Hc1 & _); [done |].
    edestruct (instantiate_returns cls cfg2) as (i2 & w2 & -> & Hc2 & _); [done |].
    exists i1, i2, w1, w2. by rewrite Hc1, Hc2.
  - left.
    edestruct (instantiate_returns cls cfg1) as (i1 & w1 & -> & Hc1 & _); [done |].
    edestruct (instantiate_returns cls cfg2) as (i2 & w2 & -> & Hc2 & _); [done |].
    exists i1, i2, w1, w2. by rewrite Hc1, Hc2.
  - right. eexists. by split_and!.
Qed.

Lemma create_inverter_ignores_case_witness :
  (∃ inv1 inv2 w1 w2,
     create_inverter null_config_default (start []) = (Return inv1, w1) ∧
     create_inverter (<["type" := VStr "DEFAULT"]> null_config_default) (start [])
       = (Return inv2, w2) ∧
     class_of inv1 = class_of inv2) ∨
  (∃ e, create_inverter null_config_default (start []) = (Raise e, start []) ∧
        create_inverter (<["type" := VStr "DEFAULT"]> null_config_default) (start [])
          = (Raise e, start []) ∧
        exn_class e = ValueError).
Proof.
  apply (create_inverter_ignores_case null_config_default
           (<["type" := VStr "DEFAULT"]> null_config_default) "default" "DEFAULT");
    try reflexivity; by exists "customer".
Defined.

(** X4.  Every key of either tier is written in lower case and is
    reached: a configuration that names it as its type (with a textual
    user) gets an instance of the class registered under that key.  In
    particular no entry of the legacy tier is hidden by the active one. *)
Theorem every_registered_type_is_reachable (key : string) (cls : InverterClass)
    (cfg : gmap string PyVal) (tr : list Effect) :
  (key, cls) ∈ INVERTER_TYPES ++ LEGACY_INVERTER_TYPES →
  dict_get cfg "type" (VStr "") = VStr key →
  user_is_text cfg →
  lower key = key ∧
  ∃ inv w, create_inverter cfg (start tr) = (Return inv, w) ∧
           class_of inv = cls.
Proof.
  intros Hin Htype Huser.
  rewrite (create_inverter_unfold cfg key _ Htype).
  unfold INVERTER_TYPES, LEGACY_INVERTER_TYPES in Hin. cbn [app] in Hin.
  repeat (apply elem_of_cons in Hin as [Hin | Hin];
          [inversion Hin; subst; clear Hin;
           (split; [reflexivity |]);
           match goal with
           | |- context [registry_get (lower ?k) INVERTER_TYPES] =>
               let r := eval vm_compute in (registry_get (lower k) INVERTER_TYPES) in
               change (registry_get (lower k) INVERTER_TYPES) with r;
               let r' := eval vm_compute in (registry_get (lower k) LEGACY_INVERTER_TYPES) in
               change (registry_get (lower k) LEGACY_INVERTER_TYPES) with r'
           end;
           cbv iota;
           match goal with
           | |- context [instantiate ?c cfg ?w0] =>
               destruct (instantiate_returns c cfg (trace w0) Huser)
                 as (inv & w & Hinst & Hcls & _);
               exists inv, w; split; [exact Hinst | exact Hcls]
           end |]).
  by apply elem_of_nil in Hin.
Qed.

Lemma every_registered_type_is_reachable_witness :
  lower "fronius_gen24_v2" = "fronius_gen24_v2" ∧
  ∃ inv w, create_inverter {[ "type" := VStr "fronius_gen24_v2" ]} (start [])
             = (Return inv, w) ∧
           class_of inv = FroniusV2.
Proof.
  apply (every_registered_type_is_reachable "fronius_gen24_v2" FroniusV2
           {[ "type" := VStr "fronius_gen24_v2" ]} []).
  - unfold INVERTER_TYPES, LEGACY_INVERTER_TYPES. cbn [app].
    do 5 apply list_elem_of_further. apply list_elem_of_here.
  - reflexivity.
  - by exists "customer".
Defined.

(** ** How the factory fails *)

Lemma instantiate_user_not_text (cls : InverterClass) (cfg : gmap string PyVal)
    (w0 : World unit) :
  ¬ user_is_text cfg →
  ∃ e, instantiate cls cfg w0 = (Raise e, w0) ∧ exn_class e = AttributeError.
Proof.
  intros Huser. unfold instantiate. rewrite abstractmethods_nil.
  destruct cls;
    try unfold NullInverter.__init__; try unfold VictronInverter.__init__;
    try unfold MockInverter.__init__; try unfold Fronius.__init__;
    try apply base_init_user_not_text; try done;
    unfold mbind, M_bind;
    match goal with
    | |- context [BaseInverter.__init__ ?c cfg w0] =>
        destruct (base_init_user_not_text c cfg w0 Huser) as (e & -> & He)
    end;
    by exists e.
Qed.





(** ** The methods every backend inherits *)

Lemma methods_of_invoke (cls : InverterClass) (c : Call) :
  invoke cls c = (λ body, body c) <$> methods_of cls.
Proof. by destruct cls. Qed.

Lemma set_is_authenticated_twice (b : bool) (i : Inverter) :
  set_is_authenticated b (set_is_authenticated b i) = set_is_authenticated b i.
Proof. reflexivity. Qed.

(** X7.  [authenticate], which the null backend, the Victron stub and
    the mock inherit from [BaseInverter], checks nothing: in every state,
    whatever user and password the object holds, it returns [True] and
    sets [is_authenticated], after one DEBUG record and without network
    I/O.  It touches no other attribute, and called again it returns
    [True] again and leaves the object as it is. *)
Theorem authenticate_checks_nothing (cls : InverterClass)
    (body : Call → M Inverter PyVal) (w : World Inverter) :
  methods_of cls = Some body →
  ∃ r w1,
    body Authenticate w = (Return (VBool true), w1) ∧
    w1 = mkWorld (set_is_authenticated true (obj w)) (trace w ++ [ELog r]) ∧
    log_level r = DEBUG ∧
    is_authenticated (obj w1) = true ∧
    user (obj w1) = user (obj w) ∧ password (obj w1) = password (obj w) ∧
    config (obj w1) = config (obj w) ∧ attrs (obj w1) = attrs (obj w) ∧
    session (obj w1) = session (obj w) ∧
    (body Authenticate w1).1 = Return (VBool true) ∧
    obj (body Authenticate w1).2 = obj w1.
Proof.
  intros Hbody.
  destruct cls; inversion Hbody; subst body;
    eexists _, _; split_and!; reflexivity.
Qed.

Lemma authenticate_checks_nothing_witness :
  ∃ r w1,
    invoke_victron Authenticate (mkWorld victron_inverter [])
      = (Return (VBool true), w1) ∧
    w1 = mkWorld (set_is_authenticated true victron_inverter) ([] ++ [ELog r]).
Proof.
  destruct (authenticate_checks_nothing VictronInverter invoke_victron
              (mkWorld victron_inverter []) eq_refl)
    as (r & w1 & Hrun & Hw1 & _).
  by exists r, w1.
Defined.

(** X8.  [shutdown] is [disconnect], and [disconnect] only writes the
    record "Session closed": on each backend of the source tree,
    shutting down any number of times returns [None] every time, leaves
    the object as it is and adds one record per call.  It never reaches
    [disconnect_inverter]: it succeeds on the Victron stub, where
    [disconnect_inverter] raises, and on the mock it leaves
    [inverter_connected] alone. *)
Theorem shutdown_only_logs (cls : InverterClass)
    (body : Call → M Inverter PyVal) (n : nat) (w : World Inverter) :
  methods_of cls = Some body →
  body Shutdown w = body Disconnect w ∧
  invoke_all body (replicate n Shutdown) w
    = (Return (replicate n VNone),
       mkWorld (obj w) (trace w ++ replicate n (session_closed (obj w)))) ∧
  (cls = VictronInverter →
   ∃ e, body DisconnectInverter w = (Raise e, w) ∧
        exn_class e = NotImplementedError) ∧
  (cls = MockInverter →
   attr "inverter_connected" (obj (body Shutdown w).2)
     = attr "inverter_connected" (obj w) ∧
   attr "inverter_connected" (obj (body DisconnectInverter w).2)
     = Some (VBool false)).
Proof.
  intros Hbody.
  assert (Hone : ∀ w0, body Shutdown w0
                       = (Return VNone,
                          mkWorld (obj w0) (trace w0 ++ [session_closed (obj w0)]))).
  { destruct cls; inversion Hbody; subst body; reflexivity. }
  split_and!.
  - destruct cls; inversion Hbody; subst body; reflexivity.
  - clear Hbody. revert w. induction n as [| n IH]; intros w.
    + cbn [replicate invoke_all]. unfold_monad. destruct w as [o t].
      cbn [obj trace]. by rewrite app_nil_r.
    + cbn [replicate invoke_all].
      rewrite (bind_Return_eq _ _ _ _ _ (Hone w)).
      rewrite (bind_Return_eq _ _ _ _ _ (IH _)).
      unfold_monad. cbn [obj trace]. by rewrite <- app_assoc.
  - intros ->. inversion Hbody; subst body. eexists. split; reflexivity.
  - intros ->. inversion Hbody; subst body. split; [reflexivity |].
    unfold attr. cbn. apply lookup_insert_eq.
Qed.

Lemma shutdown_only_logs_witness :
  invoke_all invoke_victron (replicate 3 Shutdown) (mkWorld victron_inverter [])
  = (Return (replicate 3 VNone),
     mkWorld victron_inverter ([] ++ replicate 3 (session_closed victron_inverter))).
Proof.
  apply (shutdown_only_logs VictronInverter invoke_victron 3
           (mkWorld victron_inverter []) eq_refl).
Defined.

(** X9.  The optional hook [api_set_max_pv_charge_rate] of
    [BaseInverter] stores nothing.  On each backend of the source tree,
    after any number of calls with any rates, every call has returned
    [None], the object is unchanged (its [max_pv_charge_rate] is still
    the one of the configuration), each call has logged its rate as it
    was given, and [supports_extended_monitoring] still answers [False]
    without any effect. *)
Theorem api_set_max_pv_charge_rate_stores_nothing (cls : InverterClass)
    (body : Call → M Inverter PyVal) (rates : list Z) (w : World Inverter) :
  methods_of cls = Some body →
  ∃ w',
    invoke_all body (map ApiSetMaxPvChargeRate rates) w
      = (Return (map (λ _, VNone) rates), w') ∧
    obj w' = obj w ∧
    max_pv_charge_rate (obj w') = max_pv_charge_rate (obj w) ∧
    trace w'
      = trace w ++
        map (λ rate,
               ELog (mkLog LBaseInverter DEBUG
                       "[%s] api_set_max_pv_charge_rate(%d W) not implemented (no-op)"
                       [VStr (inverter_type (obj w)); VInt rate])) rates ∧
    body SupportsExtendedMonitoring w' = (Return (VBool false), w').
Proof.
  intros Hbody.
  assert (Hone : ∀ rate w0,
    body (ApiSetMaxPvChargeRate rate) w0
    = (Return VNone,
       mkWorld (obj w0)
         (trace w0 ++
          [ELog (mkLog LBaseInverter DEBUG
                   "[%s] api_set_max_pv_charge_rate(%d W) not implemented (no-op)"
                   [VStr (inverter_type (obj w0)); VInt rate])]))).
  { destruct cls; inversion Hbody; subst body; reflexivity. }
  assert (Hmonitoring : ∀ w0, body SupportsExtendedMonitoring w0
                              = (Return (VBool false), w0)).
  { destruct cls; inversion Hbody; subst body; reflexivity. }
  clear Hbody. revert w. induction rates as [| rate rates IH]; intros w.
  - exists w. cbn [map invoke_all]. rewrite app_nil_r. by split_and!.
  - destruct (IH (body (ApiSetMaxPvChargeRate rate) w).2)
      as (w' & Hrun & Hobj & _ & Htrace & Hmon).
    rewrite Hone in Hrun, Hobj, Htrace. cbn [snd obj trace] in Hrun, Hobj, Htrace.
    exists w'. cbn [map invoke_all].
    rewrite (bind_Return_eq _ _ _ _ _ (Hone rate w)).
    rewrite (bind_Return_eq _ _ _ _ _ Hrun).
    split_and!; [reflexivity | exact Hobj | by rewrite Hobj | | exact Hmon].
    rewrite Htrace. by rewrite <- app_assoc.
Qed.

Lemma api_set_max_pv_charge_rate_stores_nothing_witness :
  ∃ w',
    invoke_all invoke_victron (map ApiSetMaxPvChargeRate [5000; 0])
      (mkWorld victron_inverter [])
      = (Return (map (λ _, VNone) [5000; 0]), w') ∧
    obj w' = victron_inverter.
Proof.
  destruct (api_set_max_pv_charge_rate_stores_nothing VictronInverter
              invoke_victron [5000; 0] (mkWorld victron_inverter []) eq_refl)
    as (w' & Hrun & Hobj & _).
  by exists w'.
Defined.

(** ** Programs of calls *)

Lemma log_records_are_no_network (records : list LogRecord) :
  filter (λ e, is_network_io e = true) (map ELog records) = [].
Proof.
  induction records as [| r records IH]; [reflexivity |].
  cbn [map]. by rewrite filter_cons_False by (simpl; discriminate).
Qed.

(** One call on the null backend. *)
Lemma null_call_step (c : Call) (w : World Inverter) :
  ∃ v records,
    invoke_null c w
      = (Return v,
         mkWorld (if switches_authenticated c
                  then set_is_authenticated true (obj w) else obj w)
                 (trace w ++ map ELog records)) ∧
    length records = (if is_silent c then 0 else 1)%nat.
Proof.
  destruct c; cbn [switches_authenticated is_silent];
    try (eexists _, [_]; split; reflexivity).
  exists (VBool false), []. cbn [map]. rewrite app_nil_r.
  split; [by destruct w | reflexivity].
Qed.

(** X10.  On the null backend every program of calls runs to its end:
    no call raises, each returns a value, nothing goes over the network,
    and each call but [supports_extended_monitoring] writes exactly one
    log record.  The object ends as it began, except that
    [is_authenticated] is set if the program contains [initialize] or
    [authenticate]; no call clears it. *)
Theorem null_programs_run_to_the_end (calls : list Call) (w : World Inverter) :
  ∃ values records w',
    invoke_all invoke_null calls w = (Return values, w') ∧
    length values = length calls ∧
    obj w' = (if existsb switches_authenticated calls
              then set_is_authenticated true (obj w) else obj w) ∧
    trace w' = trace w ++ map ELog records ∧
    length records = length (filter (λ c, is_silent c = false) calls) ∧
    network_io w' = network_io w ∧
    (is_authenticated (obj w) = true → is_authenticated (obj w') = true).
Proof.
  revert w. induction calls as [| c calls IH]; intros w.
  - exists [], [], w. cbn [map]. rewrite app_nil_r. by split_and!.
  - destruct (null_call_step c w) as (v & rs & Hstep & Hrs).
    match type of Hstep with _ = (_, ?w1) =>
      destruct (IH w1) as (vs & records & w' & Hrun & Hlen & Hobj & Htrace
                           & Hrecords & _ & Hauth)
    end.
    cbn [obj trace] in Hobj, Htrace, Hauth.
    exists (v :: vs), (rs ++ records), w'.
    assert (Htrace' : trace w' = trace w ++ map ELog (rs ++ records)).
    { by rewrite Htrace, map_app, app_assoc. }
    split_and!.
    + cbn [invoke_all]. rewrite (bind_Return_eq _ _ _ _ _ Hstep).
      by rewrite (bind_Return_eq _ _ _ _ _ Hrun).
    + cbn [length]. by rewrite Hlen.
    + rewrite Hobj. cbn [existsb].
      destruct (switches_authenticated c), (existsb switches_authenticated calls);
        reflexivity.
    + exact Htrace'.
    + rewrite length_app, Hrs, Hrecords.
      destruct c; cbn [is_silent];
        try (rewrite filter_cons_True by done; reflexivity).
      rewrite filter_cons_False by done. reflexivity.
    + unfold network_io. rewrite Htrace', filter_app, log_records_are_no_network.
      by rewrite app_nil_r.
    + intros Hbefore. apply Hauth.
      destruct (switches_authenticated c); [reflexivity | exact Hbefore].
Qed.

(** One call on the Victron stub: a method of the contract raises and
    changes nothing, any other returns after log records at most. *)
Lemma victron_call_step (c : Call) (w : World Inverter) :
  (is_contract_method c = true ∧
   invoke_victron c w = (Raise (mkExn NotImplementedError ""), w)) ∨
  (is_contract_method c = false ∧
   ∃ v o records,
     invoke_victron c w = (Return v, mkWorld o (trace w ++ map ELog records)) ∧
     (length records ≤ 1)%nat).
Proof.
  destruct c;
    try (left; split; reflexivity);
    right; (split; [reflexivity |]);
    try (eexists _, _, [_]; split; [reflexivity | cbn; lia]).
  exists (VBool false), (obj w), []. cbn [map]. rewrite app_nil_r.
  split; [by destruct w | cbn; lia].
Qed.

(** One inherited call on the Victron stub, with its exact outcome. *)
Lemma victron_inherited_step (c : Call) (w : World Inverter) :
  is_contract_method c = false →
  invoke_victron c w
    = (Return (inherited_value c),
       mkWorld (after_inherited (obj w) [c]) (trace w ++ inherited_log (obj w) c)).
Proof.
  destruct c; try discriminate; intros _; try reflexivity.
  cbn [inherited_log after_inherited existsb orb inherited_value].
  rewrite app_nil_r. by destruct w.
Qed.

Lemma after_inherited_cons (i : Inverter) (c : Call) (calls : list Call) :
  after_inherited (after_inherited i [c]) calls = after_inherited i (c :: calls).
Proof.
  unfold after_inherited. cbn [existsb].
  destruct c; cbn [orb]; try reflexivity.
  destruct (existsb _ calls); [apply set_is_authenticated_twice | reflexivity].
Qed.

Lemma inherited_log_after (i : Inverter) (calls : list Call) (c : Call) :
  inherited_log (after_inherited i calls) c = inherited_log i c.
Proof.
  unfold after_inherited. by destruct (existsb _ calls), c.
Qed.

(** The inherited calls at the head of a program on the Victron stub run
    one after the other, and the rest of the program starts from the
    object and the log they leave. *)
Lemma victron_inherited_prefix (pre rest : list Call) (w : World Inverter) :
  existsb is_contract_method pre = false →
  invoke_all invoke_victron (pre ++ rest) w
    = match invoke_all invoke_victron rest
              (mkWorld (after_inherited (obj w) pre)
                       (trace w ++ flat_map (inherited_log (obj w)) pre)) with
      | (Return vs, w') => (Return (map inherited_value pre ++ vs), w')
      | (Raise e, w') => (Raise e, w')
      end.
Proof.
  revert w. induction pre as [| c pre IH]; intros w Hpre.
  - cbn [app flat_map map]. unfold after_inherited. cbn [existsb].
    rewrite app_nil_r. destruct w as [o t]. cbn [obj trace].
    by destruct (invoke_all invoke_victron rest (mkWorld o t)) as [[vs | e] w'].
  - cbn [existsb] in Hpre. apply orb_false_iff in Hpre as [Hc Hpre].
    cbn [app invoke_all].
    rewrite (bind_Return_eq _ _ _ _ _ (victron_inherited_step c w Hc)).
    unfold mbind at 1, M_bind at 1. rewrite (IH _ Hpre). cbn [obj trace].
    rewrite after_inherited_cons, <- app_assoc.
    assert (Hlog : flat_map (inherited_log (after_inherited (obj w) [c])) pre
                   = flat_map (inherited_log (obj w)) pre).
    { apply flat_map_ext. intros c'. apply inherited_log_after. }
    rewrite Hlog. cbn [flat_map map].
    by destruct (invoke_all invoke_victron rest _) as [[vs | e] w'].
Qed.

Lemma inherited_log_no_network (i : Inverter) (calls : list Call) :
  filter (λ e, is_network_io e = true) (flat_map (inherited_log i) calls) = [].
Proof.
  induction calls as [| c calls IH]; [reflexivity |].
  cbn [flat_map]. rewrite filter_app, IH, app_nil_r. by destruct c.
Qed.

(** X11.  On the Victron stub a program of calls runs as far as its first
    method of the contract and no further.  A program without one runs to
    its end: each call returns what [BaseInverter] returns
    ([authenticate] [True], [supports_extended_monitoring] [False], the
    others [None]), the log grows by the records of the calls in their
    order, and the object changes only in that [authenticate] sets
    [is_authenticated].  A program that is [pre], then a method of the
    contract, then [post], with no method of the contract in [pre], ends
    in [NotImplementedError] in the world [pre] alone leaves: the records
    of [pre] are in the log, and nothing of [post] is run.  Every program
    with a method of the contract is of that form, and no program sends
    anything over the network. *)
Theorem victron_programs_stop_at_the_contract (calls : list Call)
    (w : World Inverter) :
  (existsb is_contract_method calls = false →
   invoke_all invoke_victron calls w
     = (Return (map inherited_value calls),
        mkWorld (after_inherited (obj w) calls)
                (trace w ++ flat_map (inherited_log (obj w)) calls))) ∧
  (∀ pre c post,
     calls = pre ++ c :: post →
     existsb is_contract_method pre = false →
     is_contract_method c = true →
     invoke_all invoke_victron calls w
       = (Raise (mkExn NotImplementedError ""),
          mkWorld (after_inherited (obj w) pre)
                  (trace w ++ flat_map (inherited_log (obj w)) pre))) ∧
  (existsb is_contract_method calls = true →
   ∃ pre c post, calls = pre ++ c :: post ∧
                 existsb is_contract_method pre = false ∧
                 is_contract_method c = true) ∧
  network_io (invoke_all invoke_victron calls w).2 = network_io w.
Proof.
  assert (Hgood : ∀ l, existsb is_contract_method l = false →
            invoke_all invoke_victron l w
            = (Return (map inherited_value l),
               mkWorld (after_inherited (obj w) l)
                       (trace w ++ flat_map (inherited_log (obj w)) l))).
  { intros l Hl. rewrite <- (app_nil_r l) at 1.
    rewrite (victron_inherited_prefix l [] w Hl). cbn [invoke_all].
    unfold mret, M_ret. by rewrite app_nil_r. }
  assert (Hbad : ∀ pre c post,
            existsb is_contract_method pre = false →
            is_contract_method c = true →
            invoke_all invoke_victron (pre ++ c :: post) w
            = (Raise (mkExn NotImplementedError ""),
               mkWorld (after_inherited (obj w) pre)
                       (trace w ++ flat_map (inherited_log (obj w)) pre))).
  { intros pre c post Hpre Hc.
    rewrite (victron_inherited_prefix pre (c :: post) w Hpre). cbn [invoke_all].
    unfold mbind at 1, M_bind at 1.
    destruct (victron_call_step c
                (mkWorld (after_inherited (obj w) pre)
                         (trace w ++ flat_map (inherited_log (obj w)) pre)))
      as [[_ ->] | [Hc' _]]; [reflexivity | congruence]. }
  assert (Hsplit : existsb is_contract_method calls = true →
            ∃ pre c post, calls = pre ++ c :: post ∧
                          existsb is_contract_method pre = false ∧
                          is_contract_method c = true).
  { clear Hgood Hbad. induction calls as [| c calls IH]; [discriminate |].
    cbn [existsb]. destruct (is_contract_method c) eqn:Hc.
    - intros _. by exists [], c, calls.
    - cbn [orb]. intros (pre & c' & post & -> & Hpre & Hc')%IH.
      exists (c :: pre), c', post. split_and!; [reflexivity | | exact Hc'].
      cbn [existsb]. by rewrite Hc, Hpre. }
  split_and!.
  - apply Hgood.
  - intros pre c post ->. apply Hbad.
  - exact Hsplit.
  - unfold network_io.
    destruct (existsb is_contract_method calls) eqn:Hcalls.
    + destruct (Hsplit eq_refl) as (pre & c & post & -> & Hpre & Hc).
      rewrite (Hbad pre c post Hpre Hc). cbn [snd trace].
      by rewrite filter_app, inherited_log_no_network, app_nil_r.
    + rewrite (Hgood calls Hcalls). cbn [snd trace].
      by rewrite filter_app, inherited_log_no_network, app_nil_r.
Qed.

Lemma victron_programs_stop_at_the_contract_witness :
  invoke_all invoke_victron
    [Authenticate; ApiSetMaxPvChargeRate 5000; Initialize; Shutdown]
    (mkWorld victron_inverter [])
  = (Raise (mkExn NotImplementedError ""),
     mkWorld (set_is_authenticated true victron_inverter)
       [ELog (mkLog LBaseInverter DEBUG
                "[{self.inverter_type}] No authentication required"
                [VStr "VictronInverter"]);
        ELog (mkLog LBaseInverter DEBUG
                "[%s] api_set_max_pv_charge_rate(%d W) not implemented (no-op)"
                [VStr "VictronInverter"; VInt 5000])]).
Proof.
  apply (proj1 (proj2 (victron_programs_stop_at_the_contract
                         [Authenticate; ApiSetMaxPvChargeRate 5000; Initialize; Shutdown]
                         (mkWorld victron_inverter [])))
           [Authenticate; ApiSetMaxPvChargeRate 5000] Initialize [Shutdown]);
    reflexivity.
Defined.

(** ** The mock of the base-class tests *)

Lemma set_attr_assigned (name : string) (v : PyVal) (i : Inverter) :
  assigned name v i (set_attr name v i).
Proof.
  unfold assigned, attr. cbn. split_and!; try reflexivity.
  - apply lookup_insert_eq.
  - intros other Hother. by apply lookup_insert_ne.
Qed.

(** A later assignment to the same name replaces the earlier one. *)
Lemma assigned_again (name : string) (v1 v2 : PyVal) (i j k : Inverter) :
  assigned name v1 i j → assigned name v2 j k → assigned name v2 i k.
Proof.
  unfold assigned.
  intros (? & ? & ? & ? & ? & ? & ? & ? & ? & ? & _ & Hij)
         (? & ? & ? & ? & ? & ? & ? & ? & ? & ? & Hv & Hjk).
  split_and!; try congruence.
  intros other Hother. rewrite (Hjk other Hother). by apply Hij.
Qed.

(** X12.  The mock records what it is told and nothing else.  Each of
    its writing methods returns, logs nothing and leaves the object as it
    was but for one attribute: the class, the configuration, the address,
    the user, the password, the two ceilings, [is_authenticated], the
    type name, the session and every attribute of another name are as
    before.  After any sequence of [set_battery_mode] calls, each of
    which returns [True], that attribute is [last_mode_set] and holds the
    mode of the last call; an empty sequence leaves the object as it is.
    [set_mode_avoid_discharge] and [set_mode_allow_discharge], through
    the bodies of [BaseInverter], leave "hold" and "normal" there.
    [set_mode_force_charge] stores the requested power as given in
    [forced_charge_power], whatever ceilings the object holds,
    [set_allow_grid_charging] stores its argument in
    [grid_charging_allowed], and [connect_inverter], [disconnect_inverter]
    and [initialize] set [inverter_connected], the last of them to run
    deciding. *)
Theorem mock_records_the_last_request (modes : list string) (power : Z)
    (value : bool) (w : World Inverter) :
  (∃ w',
     invoke_all invoke_mock (map SetBatteryMode modes) w
       = (Return (map (λ _, VBool true) modes), w') ∧
     trace w' = trace w ∧
     match last modes with
     | Some mode => assigned "last_mode_set" (VStr mode) (obj w) (obj w')
     | None => obj w' = obj w
     end) ∧
  (∃ w', invoke_mock SetModeAvoidDischarge w = (Return (VBool true), w') ∧
         trace w' = trace w ∧
         assigned "last_mode_set" (VStr "hold") (obj w) (obj w')) ∧
  (∃ w', invoke_mock SetModeAllowDischarge w = (Return (VBool true), w') ∧
         trace w' = trace w ∧
         assigned "last_mode_set" (VStr "normal") (obj w) (obj w')) ∧
  (∃ w', invoke_mock (SetModeForceCharge power) w = (Return (VBool true), w') ∧
         trace w' = trace w ∧
         assigned "forced_charge_power" (VInt power) (obj w) (obj w')) ∧
  (∃ w', invoke_mock (SetAllowGridCharging value) w = (Return VNone, w') ∧
         trace w' = trace w ∧
         assigned "grid_charging_allowed" (VBool value) (obj w) (obj w')) ∧
  (∃ w', invoke_mock Initialize w = (Return VNone, w') ∧
         trace w' = trace w ∧
         assigned "inverter_connected" (VBool true) (obj w) (obj w')) ∧
  (∃ w', invoke_all invoke_mock [ConnectInverter; DisconnectInverter] w
           = (Return [VBool true; VBool true], w') ∧
         trace w' = trace w ∧
         assigned "inverter_connected" (VBool false) (obj w) (obj w')) ∧
  (∃ w', invoke_all invoke_mock [DisconnectInverter; ConnectInverter] w
           = (Return [VBool true; VBool true], w') ∧
         trace w' = trace w ∧
         assigned "inverter_connected" (VBool true) (obj w) (obj w')).
Proof.
  split_and!;
    try (eexists; split_and!; [reflexivity | reflexivity |];
         cbn [obj]; try apply set_attr_assigned;
         eapply assigned_again; apply set_attr_assigned).
  revert w. induction modes as [| mode modes IH]; intros w.
  - exists w. by split_and!.
  - destruct (IH (mkWorld (set_attr "last_mode_set" (VStr mode) (obj w)) (trace w)))
      as (w' & Hrun & Htrace & Hlast).
    exists w'. cbn [map invoke_all].
    assert (Hstep : invoke_mock (SetBatteryMode mode) w
                    = (Return (VBool true),
                       mkWorld (set_attr "last_mode_set" (VStr mode) (obj w))
                               (trace w))) by reflexivity.
    rewrite (bind_Return_eq _ _ _ _ _ Hstep), (bind_Return_eq _ _ _ _ _ Hrun).
    split_and!; [reflexivity | exact Htrace |].
    cbn [obj] in Hlast. destruct modes as [| mode' modes].
    + cbn [last] in Hlast |- *. rewrite Hlast. apply set_attr_assigned.
    + change (last (mode :: mode' :: modes)) with (last (mode' :: modes)).
      destruct (last (mode' :: modes)) as [final |] eqn:Hfinal.
      * eapply assigned_again; [apply set_attr_assigned | exact Hlast].
      * by apply last_None in Hfinal.
Qed.

(** ** The control paths of the integration tests *)



(** ** The factory over any two tiers *)

Lemma registry_get_None (key : string) (r : Registry) :
  registry_get key r = None ↔ key ∉ registry_keys r.
Proof.
  induction r as [| [k cls] r IH]; cbn [registry_get registry_keys map fst].
  - split; [intros _; apply not_elem_of_nil | done].
  - rewrite not_elem_of_cons.
    destruct (String.eqb_spec key k) as [-> | Hne]; [| by rewrite IH; tauto].
    split; [discriminate | by intros [? _]].
Qed.

(** A constructor fails in one way only: on a user that is not text. *)
Lemma instantiate_raises_AttributeError (cls : InverterClass)
    (cfg : gmap string PyVal) (w0 w : World unit) (e : Exn) :
  instantiate cls cfg w0 = (Raise e, w) → exn_class e = AttributeError.
Proof.
  intros Hraise.
  destruct (dict_get cfg "user" (VStr "customer")) as [| | | u |] eqn:Hu;
    try (destruct (instantiate_user_not_text cls cfg w0) as (e0 & Hrun & He);
         [intros [u' Hu']; congruence
         | rewrite Hrun in Hraise; by inversion Hraise; subst]).
  destruct w0 as [[] t0].
  destruct (instantiate_returns cls cfg t0 (ex_intro _ u Hu)) as (i & w1 & Hrun & _).
  unfold start in Hrun. rewrite Hrun in Hraise. discriminate Hraise.
Qed.

(** X14.  [create_inverter] reads the two tiers from the globals of the
    module; the way it uses them does not depend on what they hold.  Take
    any two tables, each holding a key once as a dict does, and any type
    written in ASCII, for which [str.lower] changes the letters A to Z
    and nothing else.  A key of the active table is served from it even
    when the legacy table holds the same key; the type is refused with
    [ValueError], nothing logged, exactly when its lower-case form is a
    key of neither table, and the message then names that form and ends
    with the keys of the active table followed by the keys of the legacy
    table, joined by ", ", so that every key of either table occurs in
    it. *)
Theorem create_inverter_from_any_tiers (active legacy : Registry)
    (cfg : gmap string PyVal) (t : string) (tr : list Effect) :
  NoDup (registry_keys active) →
  NoDup (registry_keys legacy) →
  dict_get cfg "type" (VStr "") = VStr t →
  is_ascii t = true →
  (∀ cls, registry_get (lower t) active = Some cls →
          ∀ legacy', create_inverter_from active legacy' cfg (start tr)
                     = create_inverter_from active legacy cfg (start tr)) ∧
  ((∃ e, create_inverter_from active legacy cfg (start tr) = (Raise e, start tr) ∧
         exn_class e = ValueError) ↔
   lower t ∉ registry_keys active ++ registry_keys legacy) ∧
  (lower t ∉ registry_keys active ++ registry_keys legacy →
   ∃ msg, create_inverter_from active legacy cfg (start tr)
            = (Raise (mkExn ValueError msg), start tr) ∧
          msg = "Unknown inverter type: '" +:+ lower t +:+ "'. Supported types: "
                +:+ join ", " (registry_keys active ++ registry_keys legacy) ∧
          ∀ key, key ∈ registry_keys active ++ registry_keys legacy →
                 occurs_in key msg).
Proof.
  intros _ _ Htype _.
  assert (Hmissing : lower t ∉ registry_keys active ++ registry_keys legacy ↔
                     registry_get (lower t) active = None ∧
                     registry_get (lower t) legacy = None).
  { rewrite !registry_get_None, elem_of_app. tauto. }
  assert (Hraise : registry_get (lower t) active = None →
                   registry_get (lower t) legacy = None →
                   create_inverter_from active legacy cfg (start tr)
                   = (Raise (mkExn ValueError
                        ("Unknown inverter type: '" +:+ lower t +:+
                         "'. Supported types: " +:+
                         join ", " (registry_keys active ++ registry_keys legacy))),
                      start tr)).
  { intros Ha Hl. unfold create_inverter_from. rewrite Htype. cbn [str_lower].
    by rewrite bind_mret, Ha, Hl. }
  split_and!.
  - intros cls Hactive legacy'. unfold create_inverter_from.
    rewrite Htype. cbn [str_lower]. by rewrite !bind_mret, Hactive.
  - rewrite Hmissing. split.
    + intros (e & Hrun & He). revert Hrun.
      unfold create_inverter_from. rewrite Htype. cbn [str_lower].
      rewrite bind_mret.
      destruct (registry_get (lower t) active) as [cls |];
        [| destruct (registry_get (lower t) legacy) as [cls |]; [| done]];
        unfold logger_log; rewrite emit_then; intros Hrun;
        apply instantiate_raises_AttributeError in Hrun; congruence.
    + intros [Ha Hl]. eexists. by rewrite (Hraise Ha Hl).
  - intros [Ha Hl]%Hmissing. eexists. split; [exact (Hraise Ha Hl) |].
    split; [reflexivity |].
    intros key Hkey. do 3 apply occurs_in_app_l. by apply join_occurs.
Qed.

Lemma create_inverter_from_any_tiers_witness :
  create_inverter_from [("evcc", NullInverter)] []
    {[ "type" := VStr "EVCC" ]} (start [])
  = create_inverter_from [("evcc", NullInverter)] [("evcc", VictronInverter)]
      {[ "type" := VStr "EVCC" ]} (start []).
Proof.
  assert (Htype : dict_get {[ "type" := VStr "EVCC" ]} "type" (VStr "")
                  = VStr "EVCC") by reflexivity.
  assert (Hascii : is_ascii "EVCC" = true) by reflexivity.
  apply (proj1 (create_inverter_from_any_tiers
                  [("evcc", NullInverter)] [("evcc", VictronInverter)]
                  {[ "type" := VStr "EVCC" ]} "EVCC" []
                  (NoDup_singleton "evcc") (NoDup_singleton "evcc") Htype Hascii)
           NullInverter).
  reflexivity.
Defined.

Lemma null_programs_run_to_the_end_witness :
  ∃ values records w',
    invoke_all invoke_null
      [Initialize; ConnectInverter; SetModeForceCharge 5000;
       SupportsExtendedMonitoring; Shutdown] (mkWorld null_inverter [])
      = (Return values, w') ∧
    length values = 5%nat ∧
    obj w' = set_is_authenticated true null_inverter ∧
    trace w' = [] ++ map ELog records ∧
    length records = 4%nat.
Proof.
  destruct (null_programs_run_to_the_end
              [Initialize; ConnectInverter; SetModeForceCharge 5000;
               SupportsExtendedMonitoring; Shutdown] (mkWorld null_inverter []))
    as (values & records & w' & Hrun & Hlen & Hobj & Htrace & Hrecords & _).
  exists values, records, w'. by split_and!.
Defined.

Lemma mock_records_the_last_request_witness :
  ∃ w',
    invoke_all invoke_mock (map SetBatteryMode ["normal"; "hold"])
      (mkWorld mock_inverter [])
      = (Return [VBool true; VBool true], w') ∧
    trace w' = [] ∧
    attr "last_mode_set" (obj w') = Some (VStr "hold") ∧
    password (obj w') = VStr "secret" ∧
    attr "forced_charge_power" (obj w') = None.
Proof.
  destruct (proj1 (mock_records_the_last_request ["normal"; "hold"] 0 true
                     (mkWorld mock_inverter [])))
    as (w' & Hrun & Htrace & Hlast).
  cbn [last obj] in Hlast.
  destruct Hlast as (_ & _ & _ & _ & Hpassword & _ & _ & _ & _ & _ & Hmode & Hframe).
  exists w'. split_and!; [exact Hrun | exact Htrace | exact Hmode | exact Hpassword |].
  rewrite (Hframe "forced_charge_power") by discriminate. reflexivity.
Defined.
